(** * Fortune-cycle and calendrical derivations of the 倪師斗數 front end

    A shallow embedding of [frontend/lib/astrolabe.ts] (brightness overlay,
    ages, decadal and yearly fortune periods) and of [calculateOriginPalace]
    from [frontend/app/page.tsx], followed by the properties the
    specification states about them.

    Modelling conventions.
    - JavaScript numbers that the code only ever uses as small integers
      (years, months, ages, indices) are [Z]; the remainder operator [%]
      is [Z.rem], which like JavaScript's takes the sign of the dividend.
    - A JavaScript string is a [string] holding its UTF-8 bytes. [charAt]
      cuts it into code points; for text of the Basic Multilingual Plane
      (every stem, branch and palace name is) a code point is one UTF-16
      unit, which is what JavaScript indexes.
    - [undefined] and absent optional fields are [None].
    - An object literal used as a lookup table is a [gmap] over its own
      keys. Properties inherited from [Object.prototype] are not part of
      these maps; none of them is named by a stem, a branch, a star or a
      five-element class. Where a lookup key is checked against no such
      list, the inherited properties are modelled beside the map
      ([getStartAgeResult]).
    - The result of the external chart engine ([astro.bySolar] or
      [astro.byLunar]) and the wall clock ([new Date()]) are explicit
      arguments. *)

From Stdlib Require Import ZArith Lia.
From stdpp Require Import gmap strings list fin_maps sorting.

Open Scope string_scope.
Open Scope Z_scope.

(** ** JavaScript helpers *)

Module JS.

(** Number of continuation bytes announced by a UTF-8 leading byte. *)
Definition continuation_bytes (a : Ascii.ascii) : nat :=
  let n := Ascii.N_of_ascii a in
  if (n <? 192)%N then 0%nat
  else if (n <? 224)%N then 1%nat
  else if (n <? 240)%N then 2%nat
  else 3%nat.

(** [units s pending need]: the code points of [s], where [pending] holds
    the bytes of a code point still waiting for [need] more bytes. *)
Fixpoint units (s : string) (pending : string) (need : nat) : list string :=
  match s with
  | EmptyString => if decide (pending = EmptyString) then [] else [pending]
  | String a rest =>
      match need with
      | S k =>
          let p := pending +:+ String a EmptyString in
          match k with
          | O => p :: units rest EmptyString 0
          | S _ => units rest p k
          end
      | O =>
          match continuation_bytes a with
          | O => String a EmptyString :: units rest EmptyString 0
          | S k => units rest (String a EmptyString) (S k)
          end
      end
  end.

(** [s.charAt(i)]: the [i]-th character, or the empty string out of range. *)
Definition charAt (i : nat) (s : string) : string :=
  nth i (units s EmptyString 0) EmptyString.

(** [x || d] for a possibly undefined string [x]: the empty string and
    [undefined] are falsy. *)
Definition or_str (x : option string) (d : string) : string :=
  match x with
  | Some s => if decide (s = EmptyString) then d else s
  | None => d
  end.

(** [x || d] for a possibly undefined number [x]: zero and [undefined]
    are falsy. *)
Definition or_num (x : option Z) (d : Z) : Z :=
  match x with
  | Some n => if decide (n = 0) then d else n
  | None => d
  end.

(** [l.indexOf(x)]: position of the first occurrence, [-1] when absent. *)
Fixpoint indexOf (x : string) (l : list string) : Z :=
  match l with
  | [] => -1
  | y :: l' =>
      if decide (y = x) then 0
      else let r := indexOf x l' in if decide (r = -1) then -1 else r + 1
  end.

(** [l[i]] for a number [i]: [undefined] outside [0 .. length-1]. *)
Definition index (l : list string) (i : Z) : option string :=
  if decide (i < 0) then None else l !! Z.to_nat i.

End JS.

(** ** Data model *)

(** [StarData]; the optional [brightness] and [mutagen] are [None] when
    the property is absent or [undefined]. The stars of the engine's
    palaces are read through the same four properties. *)
Record StarData := mkStar {
  star_name : string;
  star_type : string;
  brightness : option string;
  mutagen : option string }.

(** A palace as the chart engine returns it (the properties the code reads). *)
Record EnginePalace := mkEnginePalace {
  ep_name : string;
  ep_heavenlyStem : string;
  ep_earthlyBranch : string;
  ep_majorStars : list StarData;
  ep_minorStars : list StarData;
  ep_adjectiveStars : list StarData }.

(** [PalaceData] *)
Record PalaceData := mkPalace {
  name : string;
  heavenlyStem : string;
  earthlyBranch : string;
  majorStars : list StarData;
  minorStars : list StarData;
  adjectiveStars : list StarData;
  isBodyPalace : bool;
  isSoulPalace : bool }.

(** The engine's chart: the properties [calculateAstrolabe] computes with.
    [chineseDate] is read with [?.], so it may be missing. The remaining
    properties are strings copied to the result unchanged. *)
Record EngineAstrolabe := mkEngineAstrolabe {
  ea_chineseDate : option string;
  ea_fiveElementsClass : string;
  ea_earthlyBranchOfBodyPalace : string;
  ea_palaces : list EnginePalace }.

(** The type ['男' | '女'] of [BirthData.gender]. *)
Inductive Gender := Male | Female.

(** [BirthData] (the display name plays no part). *)
Record BirthData := mkBirth {
  year : Z;
  month : Z;
  day : Z;
  hour : Z;
  gender : Gender;
  isLunar : bool }.

(** What the code reads of [new Date()]; [getMonth] counts from 0. *)
Record Date := mkDate {
  getFullYear : Z;
  getMonth : Z;
  getDate : Z }.

(** [DecadalFortune] *)
Record DecadalFortune := mkDecadal {
  d_index : Z;
  d_heavenlyStem : string;
  d_earthlyBranch : string;
  d_palaceName : string;
  startAge : Z;
  endAge : Z }.

(** [YearlyFortune]. [y_earthlyBranch] is declared a string, but the code
    fills it from an array access that can be [undefined]. *)
Record YearlyFortune := mkYearly {
  y_year : Z;
  y_heavenlyStem : string;
  y_earthlyBranch : option string;
  y_palaceName : string;
  y_age : Z }.

(** The computed part of [AstrolabeData]. *)
Record AstrolabeData := mkAstrolabe {
  palaces : list PalaceData;
  birthYear : Z;
  age : Z;
  realAge : Z;
  currentDecadal : option DecadalFortune;
  currentYearly : YearlyFortune;
  decadalFortunes : list DecadalFortune }.

#[global] Instance Gender_eq_dec : EqDecision Gender.
Proof. solve_decision. Defined.

(** ** Brightness overlay *)

Definition moon_row : list (string * string) :=
  [("子", "廟"); ("丑", "廟"); ("寅", "旺"); ("卯", "得"); ("辰", "利"); ("巳", "平");
   ("午", "不"); ("未", "平"); ("申", "利"); ("酉", "旺"); ("戌", "旺"); ("亥", "廟")].

Definition sun_row : list (string * string) :=
  [("子", "不"); ("丑", "不"); ("寅", "平"); ("卯", "利"); ("辰", "得"); ("巳", "旺");
   ("午", "廟"); ("未", "廟"); ("申", "旺"); ("酉", "得"); ("戌", "利"); ("亥", "平")].

Definition lucun_row : list (string * string) :=
  [("子", "廟"); ("丑", "廟"); ("寅", "廟"); ("卯", "廟"); ("辰", "廟"); ("巳", "廟");
   ("午", "廟"); ("未", "廟"); ("申", "廟"); ("酉", "廟"); ("戌", "廟"); ("亥", "廟")].

Definition override_rows : list (string * gmap string string) :=
  [("太陰", list_to_map moon_row);
   ("太陽", list_to_map sun_row);
   ("祿存", list_to_map lucun_row)].

Definition NI_SHI_BRIGHTNESS_OVERRIDE : gmap string (gmap string string) :=
  list_to_map override_rows.

(** [override && override[earthlyBranch]]: the row must exist and its entry
    must be a non-empty string. The table and its rows are maps over their
    own keys. That is the code's lookup whenever [earthlyBranch] is one of
    the twelve branches, whatever [starName] is: no member that the table
    inherits from [Object.prototype] has a property named by a branch. *)
Definition getStarBrightness (starName earthlyBranch : string)
    (originalBrightness : option string) : option string :=
  match NI_SHI_BRIGHTNESS_OVERRIDE !! starName with
  | Some override =>
      match override !! earthlyBranch with
      | Some grade => if decide (grade = EmptyString) then originalBrightness else Some grade
      | None => originalBrightness
      end
  | None => originalBrightness
  end.

(** ** Ages *)

(** The pair [{ realAge, age }] that [calculateAge] returns. *)
Record Ages := mkAges {
  ages_realAge : Z;
  ages_age : Z }.

Definition calculateAge (birthYear birthMonth birthDay : Z) (today : Date) : Ages :=
  let currentYear := getFullYear today in
  let currentMonth := getMonth today + 1 in
  let currentDay := getDate today in
  let realAge := currentYear - birthYear in
  let realAge :=
    if decide (currentMonth < birthMonth ∨ (currentMonth = birthMonth ∧ currentDay < birthDay))
    then realAge - 1 else realAge in
  let age := realAge + 1 in
  {| ages_realAge := Z.max 0 realAge; ages_age := Z.max 1 age |}.

(** ** Starting age of the first decadal period *)

Definition startAgeEntries : list (string * Z) :=
  [("水二局", 2); ("木三局", 3); ("金四局", 4); ("土五局", 5); ("火六局", 6)].

Definition startAgeMap : gmap string Z := list_to_map startAgeEntries.

(** The number [startAgeMap[fiveElementsClass] || 5], with [startAgeMap] read
    as a map over its own keys. That is what the code returns for every
    label that names no member inherited from [Object.prototype];
    [getStartAgeResult] below covers the other labels too. *)
Definition getStartAge (fiveElementsClass : string) : Z :=
  JS.or_num (startAgeMap !! fiveElementsClass) 5.

(** The properties an object literal inherits from [Object.prototype]
    (ECMA-262, sections 20.1.3 and B.2.2). Eleven are functions and
    [__proto__] reads as the prototype object, so every one is truthy. *)
Definition objectPrototypeMembers : list string :=
  ["constructor"; "hasOwnProperty"; "isPrototypeOf"; "propertyIsEnumerable";
   "toLocaleString"; "toString"; "valueOf"; "__proto__";
   "__defineGetter__"; "__defineSetter__"; "__lookupGetter__"; "__lookupSetter__"].

(** What [getStartAge] can return: a number, or a member of
    [Object.prototype], named by its property name. *)
Inductive StartAge : Type :=
  | StartAgeNumber (n : Z)
  | StartAgeMember (member : string).

(** [startAgeMap[fiveElementsClass] || 5] with the property lookup of the
    language: an own key first, then the prototype chain. An inherited
    member is truthy, so [|| 5] returns the member itself. *)
Definition getStartAgeResult (fiveElementsClass : string) : StartAge :=
  match startAgeMap !! fiveElementsClass with
  | Some n => StartAgeNumber (JS.or_num (Some n) 5)
  | None =>
      if decide (fiveElementsClass ∈ objectPrototypeMembers)
      then StartAgeMember fiveElementsClass
      else StartAgeNumber 5
  end.

(** ** [calculateAstrolabe] *)

(** The three [map] callbacks over the stars of a palace. *)
Definition overlayStar (palaceBranch : string) (star : StarData) : StarData :=
  {| star_name := star_name star;
     star_type := star_type star;
     brightness := getStarBrightness (star_name star) palaceBranch (brightness star);
     mutagen := mutagen star |}.

Definition adjectiveStar (star : StarData) : StarData :=
  {| star_name := star_name star;
     star_type := star_type star;
     brightness := None;
     mutagen := None |}.

Definition mapPalace (bodyPalaceBranch : string) (palace : EnginePalace) : PalaceData :=
  {| name := ep_name palace;
     heavenlyStem := ep_heavenlyStem palace;
     earthlyBranch := ep_earthlyBranch palace;
     majorStars := overlayStar (ep_earthlyBranch palace) <$> ep_majorStars palace;
     minorStars := overlayStar (ep_earthlyBranch palace) <$> ep_minorStars palace;
     adjectiveStars := adjectiveStar <$> ep_adjectiveStars palace;
     isBodyPalace := bool_decide (ep_earthlyBranch palace = bodyPalaceBranch);
     isSoulPalace := bool_decide (ep_name palace = "命宮") |}.

Definition palaceOrder : list string :=
  ["命宮"; "父母宮"; "福德宮"; "田宅宮"; "官祿宮"; "交友宮";
   "遷移宮"; "疾厄宮"; "財帛宮"; "子女宮"; "夫妻宮"; "兄弟宮"].

Definition palaceOrderReverse : list string :=
  ["命宮"; "兄弟宮"; "夫妻宮"; "子女宮"; "財帛宮"; "疾厄宮";
   "遷移宮"; "交友宮"; "官祿宮"; "田宅宮"; "福德宮"; "父母宮"].

Definition yangStems : list string := ["甲"; "丙"; "戊"; "庚"; "壬"].

Definition earthlyBranches : list string :=
  ["子"; "丑"; "寅"; "卯"; "辰"; "巳"; "午"; "未"; "申"; "酉"; "戌"; "亥"].

(** [astrolabe.chineseDate?.charAt(0) || ''] *)
Definition yearStem (astrolabe : EngineAstrolabe) : string :=
  JS.or_str (JS.charAt 0 <$> ea_chineseDate astrolabe) EmptyString.

Definition isForward (yearStem : string) (g : Gender) : bool :=
  let isYangYear := bool_decide (yearStem ∈ yangStems) in
  let isMale := bool_decide (g = Male) in
  (isYangYear && isMale) || (negb isYangYear && negb isMale).

Definition orderToUse (yearStem : string) (g : Gender) : list string :=
  if isForward yearStem g then palaceOrder else palaceOrderReverse.

(** One pass of the [for] loop body, at loop counter [i]. *)
Definition decadalAt (startAge : Z) (order : list string) (palaces : list PalaceData)
    (i : nat) : DecadalFortune :=
  let palaceName := nth i order EmptyString in
  let palace := find (fun p => bool_decide (name p = palaceName)) palaces in
  {| d_index := Z.of_nat i + 1;
     d_heavenlyStem := JS.or_str (heavenlyStem <$> palace) EmptyString;
     d_earthlyBranch := JS.or_str (earthlyBranch <$> palace) EmptyString;
     d_palaceName := palaceName;
     startAge := startAge + Z.of_nat i * 10;
     endAge := startAge + (Z.of_nat i + 1) * 10 - 1 |}.

(** The loop [for (let i = 0; i < 12; i++)] pushing one period per pass. *)
Definition buildDecadalFortunes (startAge : Z) (order : list string)
    (palaces : list PalaceData) : list DecadalFortune :=
  decadalAt startAge order palaces <$> seq 0 12.

(** [decadalFortunes.find(d => age >= d.startAge && age <= d.endAge)] *)
Definition selectCurrent (fortunes : list DecadalFortune) (age : Z) : option DecadalFortune :=
  find (fun d => bool_decide (startAge d ≤ age) && bool_decide (age ≤ endAge d)) fortunes.

(** [astrolabe.chineseDate?.charAt(1) || '子'] *)
Definition birthYearBranch (astrolabe : EngineAstrolabe) : string :=
  JS.or_str (JS.charAt 1 <$> ea_chineseDate astrolabe) "子".

Definition birthBranchIndex (astrolabe : EngineAstrolabe) : Z :=
  JS.indexOf (birthYearBranch astrolabe) earthlyBranches.

Definition currentYearBranchIndex (astrolabe : EngineAstrolabe) (birthYear currentYear : Z) : Z :=
  let yearDiff := currentYear - birthYear in
  Z.rem (birthBranchIndex astrolabe + yearDiff) 12.

Definition currentYearBranch (astrolabe : EngineAstrolabe) (birthYear currentYear : Z)
    : option string :=
  JS.index earthlyBranches (currentYearBranchIndex astrolabe birthYear currentYear).

Definition buildCurrentYearly (astrolabe : EngineAstrolabe) (palaces : list PalaceData)
    (birthYear currentYear age : Z) : YearlyFortune :=
  let branch := currentYearBranch astrolabe birthYear currentYear in
  let yearlyPalace := find (fun p => bool_decide (Some (earthlyBranch p) = branch)) palaces in
  {| y_year := currentYear;
     y_heavenlyStem := JS.or_str (heavenlyStem <$> yearlyPalace) EmptyString;
     y_earthlyBranch := branch;
     y_palaceName := JS.or_str (name <$> yearlyPalace) EmptyString;
     y_age := age |}.

(** [calculateAstrolabe data], with the chart engine's answer for [data]
    and the current date passed in. The starting age is the number
    [getStartAge]: the chart's five-element class is taken to name no member
    inherited from [Object.prototype] (see [getStartAgeResult]). *)
Definition calculateAstrolabe (astrolabe : EngineAstrolabe) (data : BirthData)
    (today : Date) : AstrolabeData :=
  let bodyPalaceBranch := ea_earthlyBranchOfBodyPalace astrolabe in
  let palaces := mapPalace bodyPalaceBranch <$> ea_palaces astrolabe in
  let ages := calculateAge (year data) (month data) (day data) today in
  let startAge := getStartAge (ea_fiveElementsClass astrolabe) in
  let currentYear := getFullYear today in
  let decadalFortunes :=
    buildDecadalFortunes startAge (orderToUse (yearStem astrolabe) (gender data)) palaces in
  {| palaces := palaces;
     birthYear := year data;
     age := ages_age ages;
     realAge := ages_realAge ages;
     currentDecadal := selectCurrent decadalFortunes (ages_age ages);
     currentYearly :=
       buildCurrentYearly astrolabe palaces (year data) currentYear (ages_age ages);
     decadalFortunes := decadalFortunes |}.

(** ** [calculateOriginPalace] (app/page.tsx) *)

Definition originEntries : list (string * string) :=
  [("甲", "戌"); ("乙", "酉"); ("丙", "申"); ("丁", "未"); ("戊", "午");
   ("己", "巳"); ("庚", "辰"); ("辛", "卯"); ("壬", "寅"); ("癸", "亥")].

Definition originMapping : gmap string string := list_to_map originEntries.

(** The returned object [{ branch, palace }]. *)
Record OriginPalace := mkOrigin {
  branch : string;
  palace : string }.

Definition calculateOriginPalace (yearStem : string) (palaces : list PalaceData)
    : OriginPalace :=
  let branch := JS.or_str (originMapping !! yearStem) "子" in
  let targetPalace := find (fun p => bool_decide (earthlyBranch p = branch)) palaces in
  let palace := match targetPalace with Some p => name p | None => "命宮" end in
  {| branch := branch; palace := palace |}.

(** ** Notions of the specification *)

(** The table's grade for a star in a branch, when it has one. *)
Definition overrideEntry (starName earthlyBranch : string) : option string :=
  NI_SHI_BRIGHTNESS_OVERRIDE !! starName ≫= (.!! earthlyBranch).

(** The spec's order on (month, day) pairs. *)
Definition lexicographic_lt (a b : Z * Z) : Prop :=
  a.1 < b.1 ∨ (a.1 = b.1 ∧ a.2 < b.2).

#[global] Instance lexicographic_lt_dec a b : Decision (lexicographic_lt a b).
Proof. unfold lexicographic_lt. apply _. Defined.

(** Years elapsed on the calendar, before any flooring: the difference of
    the years, less one while this year's birthday is still to come. *)
Definition elapsedYears (birthYear birthMonth birthDay : Z) (today : Date) : Z :=
  getFullYear today - birthYear
  - (if decide (lexicographic_lt (getMonth today + 1, getDate today) (birthMonth, birthDay))
     then 1 else 0).

Definition knownClasses : list string :=
  ["水二局"; "木三局"; "金四局"; "土五局"; "火六局"].

(** The age windows of a result's decadal periods. *)
Definition ageWindows (r : AstrolabeData) : list (Z * Z) :=
  (λ d, (startAge d, endAge d)) <$> decadalFortunes r.

(** The ten stems are the keys of [originMapping]; the spec's yin class is
    the five of them that [yangStems] leaves out. *)
Definition heavenlyStems : list string := originEntries.*1.

Definition yinStems : list string := ["乙"; "丁"; "己"; "辛"; "癸"].

(** The spec's rule for walking the palaces forward, as its formula has
    it: yang and male, or not yang and not male. *)
Definition walksForward (stem : string) (g : Gender) : Prop :=
  (stem ∈ yangStems ∧ g = Male) ∨ ((stem ∉ yangStems) ∧ g ≠ Male).

(** The same rule in words: a yang-year male or a yin-year female. *)
Definition yangMaleOrYinFemale (stem : string) (g : Gender) : Prop :=
  (stem ∈ yangStems ∧ g = Male) ∨ (stem ∈ yinStems ∧ g = Female).

(** The names of the palaces the periods of a result walk through. *)
Definition periodNames (r : AstrolabeData) : list string :=
  d_palaceName <$> decadalFortunes r.

(** The brightness of each output star is [getStarBrightness] of the
    engine's star in the palace's branch. *)
Definition overlaid (palaceBranch : string) (engineStars stars : list StarData) : Prop :=
  brightness <$> stars
  = (λ s, getStarBrightness (star_name s) palaceBranch (brightness s)) <$> engineStars.

(** The claim as the spec words it: all three star lists are overlaid. *)
Definition allStarsOverlaid (enginePalace : EnginePalace) (p : PalaceData) : Prop :=
  overlaid (ep_earthlyBranch enginePalace) (ep_majorStars enginePalace) (majorStars p)
  ∧ overlaid (ep_earthlyBranch enginePalace) (ep_minorStars enginePalace) (minorStars p)
  ∧ overlaid (ep_earthlyBranch enginePalace) (ep_adjectiveStars enginePalace) (adjectiveStars p).

(** What the code does: major and minor stars are overlaid and keep their
    name, type and mutagen; adjective stars keep name and type and have
    neither brightness nor mutagen. *)
Definition majorMinorOverlaid (enginePalace : EnginePalace) (p : PalaceData) : Prop :=
  earthlyBranch p = ep_earthlyBranch enginePalace
  ∧ overlaid (earthlyBranch p) (ep_majorStars enginePalace) (majorStars p)
  ∧ overlaid (earthlyBranch p) (ep_minorStars enginePalace) (minorStars p)
  ∧ star_name <$> adjectiveStars p = star_name <$> ep_adjectiveStars enginePalace
  ∧ star_type <$> adjectiveStars p = star_type <$> ep_adjectiveStars enginePalace
  ∧ Forall (λ s, brightness s = None ∧ mutagen s = None) (adjectiveStars p).

(** ** Sample charts used to run the definitions *)

Definition sampleStars (b : string) : list StarData :=
  if decide (b = "子") then [mkStar "太陰" "major" (Some "陷") (Some "祿")]
  else if decide (b = "午") then [mkStar "太陽" "major" None None]
  else if decide (b = "酉") then [mkStar "紫微" "major" (Some "旺") None]
  else [].

Definition samplePalace (n s b : string) : EnginePalace :=
  {| ep_name := n;
     ep_heavenlyStem := s;
     ep_earthlyBranch := b;
     ep_majorStars := sampleStars b;
     ep_minorStars := if decide (b = "寅") then [mkStar "祿存" "lucun" None None] else [];
     ep_adjectiveStars := if decide (b = "子") then [mkStar "紅鸞" "adjective" (Some "旺") None] else [] |}.

Definition samplePalaces : list EnginePalace :=
  [samplePalace "交友宮" "丙" "寅"; samplePalace "遷移宮" "丁" "卯";
   samplePalace "疾厄宮" "戊" "辰"; samplePalace "財帛宮" "己" "巳";
   samplePalace "子女宮" "庚" "午"; samplePalace "夫妻宮" "辛" "未";
   samplePalace "兄弟宮" "壬" "申"; samplePalace "命宮" "癸" "酉";
   samplePalace "父母宮" "甲" "戌"; samplePalace "福德宮" "乙" "亥";
   samplePalace "田宅宮" "丙" "子"; samplePalace "官祿宮" "丁" "丑"].

Definition sampleChart (chineseDate fiveElementsClass : string) : EngineAstrolabe :=
  {| ea_chineseDate := Some chineseDate;
     ea_fiveElementsClass := fiveElementsClass;
     ea_earthlyBranchOfBodyPalace := "亥";
     ea_palaces := samplePalaces |}.

Definition sampleBirth (y : Z) (g : Gender) : BirthData :=
  {| year := y; month := 6; day := 15; hour := 3; gender := g; isLunar := false |}.

(** 2 November 2026 *)
Definition sampleToday : Date :=
  {| getFullYear := 2026; getMonth := 10; getDate := 2 |}.

(** A 木三局 chart of the yang year 甲子 (1984), the same chart in the yin
    year 乙丑, and a 水二局 chart. *)
Definition woodYangChart : EngineAstrolabe := sampleChart "甲子 丙寅 戊辰 壬子" "木三局".

Definition woodYinChart : EngineAstrolabe := sampleChart "乙丑 戊寅 戊辰 壬子" "木三局".

Definition waterChart : EngineAstrolabe := sampleChart "甲子 丙寅 戊辰 壬子" "水二局".

Definition sampleData : BirthData := sampleBirth 1984 Male.

(** ** Further notions used by the properties *)

(** The stars and the grades of the override table. *)
Definition overriddenStars : list string := ["太陰"; "太陽"; "祿存"].

Definition overrideGrades : list string := ["廟"; "旺"; "得"; "利"; "平"; "不"].

(** Calendar order on the dates the clock can show. *)
Definition dateLe (t1 t2 : Date) : Prop :=
  getFullYear t1 < getFullYear t2
  ∨ (getFullYear t1 = getFullYear t2
     ∧ (getMonth t1 < getMonth t2
        ∨ (getMonth t1 = getMonth t2 ∧ getDate t1 ≤ getDate t2))).

(** The birth date is today or still to come. *)
Definition notYetBorn (birthYear birthMonth birthDay : Z) (today : Date) : Prop :=
  getFullYear today < birthYear
  ∨ (getFullYear today = birthYear
     ∧ (getMonth today + 1 < birthMonth
        ∨ (getMonth today + 1 = birthMonth ∧ getDate today ≤ birthDay))).


(** ** The page and the backend requests (app/page.tsx, lib/api.ts,
    components/AnalysisPanel.tsx) *)

(** [ChartPalaceData]: a palace as [analyzeChart] receives it. *)
Record ChartPalaceData := mkChartPalace {
  cp_name : string;
  cp_heavenlyStem : string;
  cp_earthlyBranch : string;
  cp_majorStars : list StarData;
  cp_minorStars : list StarData;
  cp_isSoulPalace : bool;
  cp_isBodyPalace : bool }.

(** The star callback [s => ({ name, type, brightness, mutagen })]. *)
Definition copyStar (s : StarData) : StarData :=
  {| star_name := star_name s;
     star_type := star_type s;
     brightness := brightness s;
     mutagen := mutagen s |}.

Definition convertPalacesToAPIFormat (palaces : list PalaceData) : list ChartPalaceData :=
  (λ palace,
     {| cp_name := name palace;
        cp_heavenlyStem := heavenlyStem palace;
        cp_earthlyBranch := earthlyBranch palace;
        cp_majorStars := copyStar <$> majorStars palace;
        cp_minorStars := copyStar <$> minorStars palace;
        cp_isSoulPalace := isSoulPalace palace;
        cp_isBodyPalace := isBodyPalace palace |}) <$> palaces.

(** A star and a palace of the request body's [palaces] dictionary. *)
Record DictStar := mkDictStar {
  ds_name : string;
  ds_brightness : option string;
  ds_mutagen : option string }.

Record DictEntry := mkDictEntry {
  de_branch : string;
  de_stem : string;
  de_stars : list DictStar }.

(** The star callback [s => ({ name, brightness, mutagen })]. *)
Definition dictStar (s : StarData) : DictStar :=
  {| ds_name := star_name s;
     ds_brightness := brightness s;
     ds_mutagen := mutagen s |}.

Definition dictEntry (branch stem : string) (major minor : list StarData) : DictEntry :=
  {| de_branch := branch;
     de_stem := stem;
     de_stars := (dictStar <$> major) ++ (dictStar <$> minor) |}.

(** The loop of [analyzeChart]: [palacesDict[palace.name] = {...}] for each
    palace in turn, starting from the empty object. *)
Definition analyzeChart_palacesDict (palaces : list ChartPalaceData) : gmap string DictEntry :=
  foldl (λ palacesDict palace,
           <[cp_name palace :=
               dictEntry (cp_earthlyBranch palace) (cp_heavenlyStem palace)
                 (cp_majorStars palace) (cp_minorStars palace)]> palacesDict)
        ∅ palaces.

(** The same loop in [handleAIReading], over [astrolabeData.palaces]. *)
Definition handleAIReading_palacesDict (palaces : list PalaceData) : gmap string DictEntry :=
  foldl (λ palacesDict palace,
           <[name palace :=
               dictEntry (earthlyBranch palace) (heavenlyStem palace)
                 (majorStars palace) (minorStars palace)]> palacesDict)
        ∅ palaces.

(** The computed part of [AIReadingRequest]; the remaining properties are
    strings copied from the chart. *)
Record AIReadingRequest := mkAIReadingRequest {
  rq_palaces : gmap string DictEntry;
  rq_age : Z;
  rq_origin_palace : option OriginPalace;
  rq_current_decadal : option DecadalFortune;
  rq_current_yearly : YearlyFortune }.

(** The request [handleAIReading] builds; [age] is [astrolabeData.age || 30]. *)
Definition handleAIReading_request (astrolabeData : AstrolabeData)
    (originPalace : option OriginPalace) : AIReadingRequest :=
  {| rq_palaces := handleAIReading_palacesDict (palaces astrolabeData);
     rq_age := JS.or_num (Some (age astrolabeData)) 30;
     rq_origin_palace := originPalace;
     rq_current_decadal := currentDecadal astrolabeData;
     rq_current_yearly := currentYearly astrolabeData |}.

(** The origin palace [handleSubmit] computes: the year stem is
    [result.chineseDate?.charAt(0) || '甲'], where [result.chineseDate] is
    the engine's [chineseDate], copied by [calculateAstrolabe]. *)
Definition handleSubmit_origin (astrolabe : EngineAstrolabe) (data : BirthData)
    (today : Date) : OriginPalace :=
  let result := calculateAstrolabe astrolabe data today in
  let yearStem := JS.or_str (JS.charAt 0 <$> ea_chineseDate astrolabe) "甲" in
  calculateOriginPalace yearStem (palaces result).

(** The palaces [handleSubmit] passes on to [analyzeChart], through
    [fetchAnalysis] and [convertPalacesToAPIFormat]. *)
Definition handleSubmit_palacesDict (astrolabe : EngineAstrolabe) (data : BirthData)
    (today : Date) : gmap string DictEntry :=
  analyzeChart_palacesDict
    (convertPalacesToAPIFormat (palaces (calculateAstrolabe astrolabe data today))).


(** Writing [m[key x] = val x] for each [x] of a list in turn. *)
Definition insertAll {A V : Type} (key : A → string) (val : A → V)
    (m : gmap string V) (l : list A) : gmap string V :=
  foldl (λ m x, <[key x := val x]> m) m l.

(** The dictionary entry [analyzeChart] and [handleAIReading] write for a
    palace. *)
Definition palaceEntry (p : PalaceData) : DictEntry :=
  dictEntry (earthlyBranch p) (heavenlyStem p) (majorStars p) (minorStars p).

(** The entry of an engine palace once overlaid. *)
Definition enginePalaceEntry (e : EnginePalace) : DictEntry :=
  dictEntry (ep_earthlyBranch e) (ep_heavenlyStem e)
    (overlayStar (ep_earthlyBranch e) <$> ep_majorStars e)
    (overlayStar (ep_earthlyBranch e) <$> ep_minorStars e).


(** ** The chart component (components/AstrolabeChart.tsx) *)

Definition EARTHLY_BRANCHES : list string :=
  ["子"; "丑"; "寅"; "卯"; "辰"; "巳"; "午"; "未"; "申"; "酉"; "戌"; "亥"].

(** [EARTHLY_BRANCHES[i]] at an index that the caller keeps within the
    ring. *)
Definition branchAt (i : Z) : string :=
  nth (Z.to_nat i) EARTHLY_BRANCHES EmptyString.

Definition getSanfangSizheng (branch : string) : list string :=
  let idx := JS.indexOf branch EARTHLY_BRANCHES in
  if decide (idx = -1) then []
  else
    let self := branch in
    let opposite := branchAt (Z.rem (idx + 6) 12) in
    let trineLeft := branchAt (Z.rem (idx + 4) 12) in
    let trineRight := branchAt (Z.rem (idx + 8) 12) in
    [self; opposite; trineLeft; trineRight].

(** ['self' | 'opposite' | 'trine'] *)
Inductive HighlightType := HighlightSelf | HighlightOpposite | HighlightTrine.

#[global] Instance HighlightType_eq_dec : EqDecision HighlightType.
Proof. solve_decision. Defined.

(** [data.palaces.find(p => p.isSoulPalace)?.earthlyBranch || ''] and the
    branches computed from it. *)
Definition soulBranch (palaces : list PalaceData) : string :=
  JS.or_str (earthlyBranch <$> find isSoulPalace palaces) EmptyString.

Definition sanfangBranches (palaces : list PalaceData) : list string :=
  getSanfangSizheng (soulBranch palaces).

(** [isHighlighted] and [highlightType] of the cell of a palace. *)
Definition isHighlighted (sanfang : list string) (cell : PalaceData) : bool :=
  bool_decide (JS.indexOf (earthlyBranch cell) sanfang ≠ -1).

Definition highlightType (sanfang : list string) (cell : PalaceData) : option HighlightType :=
  let sanfangIdx := JS.indexOf (earthlyBranch cell) sanfang in
  if decide (sanfangIdx = 0) then Some HighlightSelf
  else if decide (sanfangIdx = 1) then Some HighlightOpposite
  else if decide (sanfangIdx >= 2) then Some HighlightTrine
  else None.

(** An entry of the four-transformations list. *)
Record Sihua := mkSihua {
  sh_type : string;
  sh_star : string;
  sh_palace : string }.

Definition sihuaOrder : list string := ["祿"; "權"; "科"; "忌"].

(** [l.sort((a, b) => key(a) - key(b))]: the stable sort by ascending key
    that ECMAScript prescribes, written as an insertion sort. *)
Fixpoint insertByKey {A : Type} (key : A → Z) (x : A) (l : list A) : list A :=
  match l with
  | [] => [x]
  | y :: l' => if decide (key x ≤ key y) then x :: y :: l' else y :: insertByKey key x l'
  end.

Definition sortByKey {A : Type} (key : A → Z) (l : list A) : list A :=
  foldr (insertByKey key) [] l.

(** The test and the [push] of the inner loop, for one star of a palace. *)
Definition sihuaOfStar (palaceName : string) (star : StarData) : list Sihua :=
  match mutagen star with
  | Some m =>
      if decide (m ≠ EmptyString ∧ m ∈ sihuaOrder)
      then [{| sh_type := m; sh_star := star_name star; sh_palace := palaceName |}]
      else []
  | None => []
  end.

(** The two nested loops: the entries in the order they are pushed. *)
Definition collectSihua (palaces : list PalaceData) : list Sihua :=
  palace ← palaces;
  star ← (majorStars palace ++ minorStars palace)%list;
  sihuaOfStar (name palace) star.

Definition sihuaKey (a : Sihua) : Z := JS.indexOf (sh_type a) sihuaOrder.

Definition extractSihuaFromData (palaces : list PalaceData) : list Sihua :=
  sortByKey sihuaKey (collectSihua palaces).


(** The highlight of a cell depends on its branch alone; [cellOn b] is a
    palace on branch [b] with nothing else. *)
Definition cellOn (b : string) : PalaceData :=
  {| name := EmptyString; heavenlyStem := EmptyString; earthlyBranch := b;
     majorStars := []; minorStars := []; adjectiveStars := [];
     isBodyPalace := false; isSoulPalace := false |}.


(** A cell of the 4 by 4 grid: [null], ['center'] or a palace. *)
Inductive Cell := CellNull | CellCenter | CellPalace (palace : PalaceData).

(** [PALACE_POSITIONS], in the order of its entries: branch, row, column. *)
Definition PALACE_POSITIONS : list (string * (nat * nat)) :=
  [("巳", (0, 0)); ("午", (0, 1)); ("未", (0, 2)); ("申", (0, 3));
   ("酉", (1, 3)); ("戌", (2, 3)); ("亥", (3, 3)); ("子", (3, 2));
   ("丑", (3, 1)); ("寅", (3, 0)); ("卯", (2, 0)); ("辰", (1, 0))]%nat.

(** [palaceMap.set(palace.earthlyBranch, palace)] for each palace in turn. *)
Definition palaceMap (palaces : list PalaceData) : gmap string PalaceData :=
  insertAll earthlyBranch id ∅ palaces.

Definition initialGrid : list (list Cell) :=
  [[CellNull; CellNull; CellNull; CellNull];
   [CellNull; CellCenter; CellCenter; CellNull];
   [CellNull; CellCenter; CellCenter; CellNull];
   [CellNull; CellNull; CellNull; CellNull]].

(** [grid[row][col] = x] on an existing row. *)
Definition setCell (grid : list (list Cell)) (row col : nat) (x : Cell) : list (list Cell) :=
  match grid !! row with
  | Some cells => <[row := <[col := x]> cells]> grid
  | None => grid
  end.

(** The callback over [Object.entries(PALACE_POSITIONS)]. *)
Definition placePalace (m : gmap string PalaceData) (grid : list (list Cell))
    (entry : string * (nat * nat)) : list (list Cell) :=
  match m !! entry.1 with
  | Some palace => setCell grid entry.2.1 entry.2.2 (CellPalace palace)
  | None => grid
  end.

Definition buildGrid (palaces : list PalaceData) : list (list Cell) :=
  foldl (placePalace (palaceMap palaces)) initialGrid PALACE_POSITIONS.

(** What the grid shows for a branch: the last palace on it, or nothing. *)
Definition cellOfBranch (palaces : list PalaceData) (b : string) : Cell :=
  match last (filter (λ p, earthlyBranch p = b) palaces) with
  | Some palace => CellPalace palace
  | None => CellNull
  end.


(** ** The palace list of the analysis panel (components/AnalysisPanel.tsx) *)

(** The [palaceOrder] of [PalaceAnalysisSection]. *)
Definition analysisPalaceOrder : list string :=
  ["命宮"; "兄弟宮"; "夫妻宮"; "子女宮"; "財帛宮"; "疾厄宮";
   "遷移宮"; "交友宮"; "官祿宮"; "田宅宮"; "福德宮"; "父母宮"].

Definition analysisPalaceKey (p : PalaceData) : Z :=
  JS.indexOf (name p) analysisPalaceOrder.

(** [[...palaces].sort((a, b) => palaceOrder.indexOf(a.name) -
    palaceOrder.indexOf(b.name))] *)
Definition sortedPalaces (palaces : list PalaceData) : list PalaceData :=
  sortByKey analysisPalaceKey palaces.

(** ** The form and its recent searches (components/ChartForm.tsx) *)

Definition MAX_RECORDS : nat := 10.

(** [SearchRecord] *)
Record SearchRecord := mkSearchRecord {
  sr_id : string;
  sr_timestamp : Z;
  sr_name : option string;
  sr_yearStr : string;
  sr_monthStr : string;
  sr_dayStr : string;
  sr_hour : Z;
  sr_gender : Gender;
  sr_isLunar : bool }.

(** The test both [some] and [filter] apply in [saveSearchRecord]: the same
    birth data as [record]. *)
Definition sameBirth (record r : SearchRecord) : Prop :=
  sr_yearStr r = sr_yearStr record
  ∧ sr_monthStr r = sr_monthStr record
  ∧ sr_dayStr r = sr_dayStr record
  ∧ sr_hour r = sr_hour record
  ∧ sr_gender r = sr_gender record
  ∧ sr_isLunar r = sr_isLunar record.

#[global] Instance sameBirth_dec record r : Decision (sameBirth record r).
Proof. unfold sameBirth. apply _. Defined.

(** The list [saveSearchRecord] stores and shows. [record] carries the
    fields of the form; [id] and [timestamp] are [Date.now().toString()] and
    [Date.now()]. *)
Definition saveSearchRecord (recentSearches : list SearchRecord) (record : SearchRecord)
    (id : string) (timestamp : Z) : list SearchRecord :=
  let newRecord :=
    {| sr_id := id; sr_timestamp := timestamp; sr_name := sr_name record;
       sr_yearStr := sr_yearStr record; sr_monthStr := sr_monthStr record;
       sr_dayStr := sr_dayStr record; sr_hour := sr_hour record;
       sr_gender := sr_gender record; sr_isLunar := sr_isLunar record |} in
  let isDuplicate := bool_decide (Exists (sameBirth record) recentSearches) in
  let updatedRecords :=
    if isDuplicate
    then newRecord :: filter (λ r, ¬ sameBirth record r) recentSearches
    else newRecord :: recentSearches in
  take MAX_RECORDS updatedRecords.

(** The list [deleteRecord] stores and shows. *)
Definition deleteRecord (recentSearches : list SearchRecord) (id : string)
    : list SearchRecord :=
  filter (λ r, sr_id r ≠ id) recentSearches.

(** What [handleSubmit] of the form does: show an error, or save the search
    and submit the birth data. *)
Inductive SubmitOutcome :=
  | ShowError (message : string)
  | Submit (data : BirthData).

(** One validation step: [if (isNaN(x) || x < lo || x > hi) { setError(message);
    return; }], then the rest of the handler. *)
Definition checkField (x : option Z) (lo hi : Z) (message : string)
    (rest : Z → SubmitOutcome) : SubmitOutcome :=
  match x with
  | Some v => if decide (v < lo ∨ v > hi) then ShowError message else rest v
  | None => ShowError message
  end.

(** [handleSubmit] of the form, given what [parseInt(_, 10)] returns for the
    three text fields ([None] for [NaN]). Before submitting, the handler
    saves the search with [saveSearchRecord]. *)
Definition handleSubmit_form (year month day : option Z) (hour : Z) (g : Gender)
    (lunar : bool) : SubmitOutcome :=
  checkField year 1900 2100 "請輸入有效的年份（1900-2100）" (λ y,
  checkField month 1 12 "請輸入有效的月份（1-12）" (λ m,
  checkField day 1 31 "請輸入有效的日期（1-31）" (λ d,
  Submit {| year := y; month := m; day := d; hour := hour;
            gender := g; isLunar := lunar |}))).


(** ** Further samples *)

(** The chart computed for the 木三局 sample and its palaces. *)
Definition sampleResult : AstrolabeData :=
  calculateAstrolabe woodYangChart sampleData sampleToday.

(** The sample chart as the engine would return it without a date string. *)
Definition undatedChart : EngineAstrolabe :=
  {| ea_chineseDate := None;
     ea_fiveElementsClass := "木三局";
     ea_earthlyBranchOfBodyPalace := "亥";
     ea_palaces := samplePalaces |}.

(** Two stored searches and the fields of a third. *)
Definition sampleSearch (id : string) (ts : Z) (y : string) : SearchRecord :=
  {| sr_id := id; sr_timestamp := ts; sr_name := None;
     sr_yearStr := y; sr_monthStr := "6"; sr_dayStr := "15";
     sr_hour := 3; sr_gender := Male; sr_isLunar := false |}.

Definition sampleSearches : list SearchRecord :=
  [sampleSearch "1700000002000" 1700000002000 "1990";
   sampleSearch "1700000001000" 1700000001000 "1984"].

(** * Properties *)

(** ** Strings *)

Example charAt_stem : JS.charAt 0 "庚午 辛巳 癸酉 壬子" = "庚".
Proof. reflexivity. Qed.

Example charAt_branch : JS.charAt 1 "庚午 辛巳 癸酉 壬子" = "午".
Proof. reflexivity. Qed.

Example charAt_short : JS.charAt 1 "庚" = EmptyString.
Proof. reflexivity. Qed.

(** ** Lookup tables *)

Section Tables.
Context {V : Type}.
Implicit Types (l : list (string * V)) (k : string).

(** A key outside the literal's keys is a miss. *)
Lemma table_miss l k : k ∉ l.*1 → (list_to_map l : gmap string V) !! k = None.
Proof. apply not_elem_of_list_to_map_1. Qed.

(** A hit comes from one of the literal's entries. *)
Lemma table_hit l k v : (list_to_map l : gmap string V) !! k = Some v → (k, v) ∈ l.
Proof. apply elem_of_list_to_map_2. Qed.

End Tables.

(** Splits a membership in a literal list into one goal per element. *)
Ltac entries H :=
  repeat (apply elem_of_cons in H as [H | H]; [ | ]);
  [ .. | apply elem_of_nil in H; destruct H ].

(** No grade of the override table is the empty string, so the truthiness
    test of [getStarBrightness] never rejects an entry. *)
Lemma override_grade_nonempty (starName earthlyBranch grade : string)
    (row : gmap string string) :
  NI_SHI_BRIGHTNESS_OVERRIDE !! starName = Some row →
  row !! earthlyBranch = Some grade →
  grade ≠ EmptyString.
Proof.
  intros Hrow Hgrade. apply table_hit in Hrow.
  entries Hrow; injection Hrow as _ ->;
    [ apply (table_hit moon_row) in Hgrade
    | apply (table_hit sun_row) in Hgrade
    | apply (table_hit lucun_row) in Hgrade ];
    entries Hgrade; injection Hgrade as _ ->; discriminate.
Qed.

(** ** Brightness overlay *)

(** C3. [getStarBrightness] answers with the override table's grade when the
    table has an entry for the star in that branch, and with the engine's
    brightness, unchanged and possibly absent, when it has none. 太陰 in 子
    is 廟 whatever the engine said. *)
Theorem getStarBrightness_override_or_original
    (starName earthlyBranch : string) (originalBrightness : option string) :
  getStarBrightness starName earthlyBranch originalBrightness
    = match overrideEntry starName earthlyBranch with
      | Some grade => Some grade
      | None => originalBrightness
      end
  ∧ overrideEntry "太陰" "子" = Some "廟"
  ∧ getStarBrightness "太陰" "子" originalBrightness = Some "廟".
Proof.
  split; [ | split; reflexivity ].
  unfold getStarBrightness, overrideEntry.
  destruct (NI_SHI_BRIGHTNESS_OVERRIDE !! starName) as [row | ] eqn:Hrow; simpl; [ | done ].
  destruct (row !! earthlyBranch) as [grade | ] eqn:Hgrade; [ | done ].
  pose proof (override_grade_nonempty _ _ _ _ Hrow Hgrade).
  by case_decide.
Qed.

(** ** Ages *)

(** C7. [calculateAge] returns as calendar age the elapsed years floored at
    0, and as traditional age one more than that, floored at 1; the floor at
    1 gives the same number whether it is read over the floored or the
    unfloored calendar age. A birth date equal to today gives 0 and 1. *)
Theorem calculateAge_calendar_and_traditional
    (birthYear birthMonth birthDay : Z) (today : Date) :
  let r := calculateAge birthYear birthMonth birthDay today in
  ages_realAge r = Z.max 0 (elapsedYears birthYear birthMonth birthDay today)
  ∧ ages_age r = Z.max 1 (elapsedYears birthYear birthMonth birthDay today + 1)
  ∧ ages_age r = Z.max 1 (ages_realAge r + 1)
  ∧ calculateAge (getFullYear today) (getMonth today + 1) (getDate today) today
    = {| ages_realAge := 0; ages_age := 1 |}.
Proof.
  unfold calculateAge, elapsedYears, lexicographic_lt; simpl.
  repeat split.
  - repeat case_decide; lia || tauto.
  - repeat case_decide; lia || tauto.
  - case_decide; lia.
  - case_decide; [ lia | ]. f_equal; lia.
Qed.

(** ** Starting age *)

Lemma getStartAge_known :
  getStartAge <$> knownClasses = [2; 3; 4; 5; 6].
Proof. reflexivity. Qed.

Lemma getStartAge_miss (fiveElementsClass : string) :
  fiveElementsClass ∉ knownClasses → getStartAge fiveElementsClass = 5.
Proof.
  intros Hmiss. unfold getStartAge, startAgeMap.
  by rewrite (table_miss startAgeEntries).
Qed.

(** Every starting age is one of 2, 3, 4, 5, 6. *)
Lemma getStartAge_range (fiveElementsClass : string) :
  2 ≤ getStartAge fiveElementsClass ≤ 6.
Proof.
  unfold getStartAge, startAgeMap.
  destruct (list_to_map startAgeEntries !! fiveElementsClass) as [n | ] eqn:Hn;
    simpl; [ | lia ].
  apply table_hit in Hn. entries Hn; injection Hn as _ ->; simpl; lia.
Qed.

(** On every label that names no inherited member, the code returns the
    number [getStartAge]. *)
Lemma getStartAgeResult_number (fiveElementsClass : string) :
  fiveElementsClass ∉ objectPrototypeMembers →
  getStartAgeResult fiveElementsClass = StartAgeNumber (getStartAge fiveElementsClass).
Proof.
  intros Hown. unfold getStartAgeResult, getStartAge.
  destruct (startAgeMap !! fiveElementsClass) as [n | ]; [ done | ].
  by case_decide.
Qed.

(** The five known labels have starting ages 2, 3, 4, 5 and 6. A
    five-element class that is none of them, and names no member inherited
    from [Object.prototype], gets starting age 5, so its chart has the age
    windows of a 土五局 chart. *)
Lemma getStartAge_unknown_class (fiveElementsClass : string) :
  fiveElementsClass ∉ knownClasses →
  fiveElementsClass ∉ objectPrototypeMembers →
  getStartAgeResult fiveElementsClass = StartAgeNumber 5
  ∧ getStartAgeResult <$> knownClasses = StartAgeNumber <$> [2; 3; 4; 5; 6]
  ∧ ∀ (astrolabe earth : EngineAstrolabe) (data : BirthData) (today : Date),
      ea_fiveElementsClass astrolabe = fiveElementsClass →
      ea_fiveElementsClass earth = "土五局" →
      ageWindows (calculateAstrolabe astrolabe data today)
      = ageWindows (calculateAstrolabe earth data today).
Proof.
  intros Hmiss Hown. pose proof (getStartAge_miss _ Hmiss) as H5.
  split; [ by rewrite getStartAgeResult_number, H5 | split; [ done | ] ].
  intros astrolabe earth data today Hclass Hearth.
  unfold ageWindows, calculateAstrolabe; simpl.
  rewrite Hclass, Hearth, H5.
  change (getStartAge "土五局") with 5.
  reflexivity.
Qed.

(** C10. The claim fails on a label that names a member of
    [Object.prototype]: [constructor], [toString] and [__proto__] are none
    of the five known classes, and for each of them the lookup
    [startAgeMap[fiveElementsClass] || 5] returns the inherited member, not
    the number 5 that 土五局 and an unknown label such as 金七局 get. *)
Theorem getStartAge_inherited_member :
  (("constructor" ∉ knownClasses) ∧ ("toString" ∉ knownClasses)
   ∧ ("__proto__" ∉ knownClasses))
  ∧ getStartAgeResult "constructor" = StartAgeMember "constructor"
  ∧ getStartAgeResult "toString" = StartAgeMember "toString"
  ∧ getStartAgeResult "__proto__" = StartAgeMember "__proto__"
  ∧ getStartAgeResult "constructor" ≠ StartAgeNumber 5
  ∧ getStartAgeResult "土五局" = StartAgeNumber 5
  ∧ getStartAgeResult "金七局" = StartAgeNumber 5.
Proof.
  split; [ repeat split; apply (bool_decide_unpack _); vm_compute; exact I | ].
  repeat split; try reflexivity. discriminate.
Qed.

(** ** Decadal periods *)

(** Settles a closed decidable proposition by evaluation. *)
Ltac by_evaluation := apply (bool_decide_unpack _); vm_compute; exact I.

Lemma stems_partition (stem : string) :
  stem ∈ heavenlyStems → (stem ∉ yangStems ↔ stem ∈ yinStems).
Proof.
  intros Hstem. entries Hstem; subst stem;
    (split; [ intros Hn; try by_evaluation; exfalso; apply Hn; by_evaluation
            | intros Hy; try by_evaluation; exfalso; revert Hy; by_evaluation ]).
Qed.

Lemma yin_not_yang (stem : string) : stem ∈ yinStems → stem ∉ yangStems.
Proof. intros Hyin. entries Hyin; subst stem; by_evaluation. Qed.

Lemma isForward_walksForward (stem : string) (g : Gender) :
  isForward stem g = true ↔ walksForward stem g.
Proof.
  unfold isForward, walksForward.
  destruct g; repeat case_bool_decide; simpl; split; try done; intros; tauto.
Qed.

(** On the ten stems the formula and the wording agree. *)
Lemma walksForward_yin (stem : string) (g : Gender) :
  stem ∈ heavenlyStems → (walksForward stem g ↔ yangMaleOrYinFemale stem g).
Proof.
  intros Hstem. pose proof (stems_partition _ Hstem) as Hpart.
  unfold walksForward, yangMaleOrYinFemale.
  destruct g; split; intros [[H1 H2] | [H1 H2]]; try done; try tauto.
  right. split; [ by apply Hpart | done ].
Qed.

Section Decadal.
Variables (s : Z) (order : list string) (chart : list PalaceData).

Lemma decadal_lookup (i : nat) (d : DecadalFortune) :
  buildDecadalFortunes s order chart !! i = Some d
  ↔ (i < 12)%nat ∧ d = decadalAt s order chart i.
Proof.
  unfold buildDecadalFortunes. rewrite list_lookup_fmap, fmap_Some.
  split.
  - intros (j & Hj & ->). apply lookup_seq in Hj as [-> Hlt]. done.
  - intros [Hlt ->]. exists i. split; [ | done ]. by apply lookup_seq.
Qed.

Lemma decadal_elem (d : DecadalFortune) :
  d ∈ buildDecadalFortunes s order chart
  ↔ ∃ i : nat, (i < 12)%nat ∧ d = decadalAt s order chart i.
Proof.
  rewrite list_elem_of_lookup. split.
  - intros [i Hi]. exists i. by apply decadal_lookup.
  - intros (i & Hlt & ->). exists i. by apply decadal_lookup.
Qed.

Lemma decadal_length : length (buildDecadalFortunes s order chart) = 12%nat.
Proof. reflexivity. Qed.

(** Each window is ten years wide and starts right after the one before. *)
Lemma decadal_width (d : DecadalFortune) :
  d ∈ buildDecadalFortunes s order chart → endAge d = startAge d + 9.
Proof. intros (i & Hi & ->)%decadal_elem. simpl. lia. Qed.

Lemma decadal_contiguous (i : nat) (d e : DecadalFortune) :
  buildDecadalFortunes s order chart !! i = Some d →
  buildDecadalFortunes s order chart !! S i = Some e →
  startAge e = endAge d + 1.
Proof. intros [_ ->]%decadal_lookup [_ ->]%decadal_lookup. simpl. lia. Qed.

(** The windows tile [s .. s + 119]. *)
Lemma decadal_cover (a : Z) :
  s ≤ a ≤ s + 119
  ↔ ∃ d, d ∈ buildDecadalFortunes s order chart ∧ startAge d ≤ a ≤ endAge d.
Proof.
  split.
  - intros Ha. exists (decadalAt s order chart (Z.to_nat ((a - s) / 10))).
    assert (0 ≤ (a - s) / 10 < 12) by (split; [ apply Z.div_pos | apply Z.div_lt_upper_bound ]; lia).
    split.
    + apply decadal_elem. eexists. split; [ | done ]. lia.
    + simpl. rewrite Z2Nat.id by lia.
      pose proof (Z.mul_div_le (a - s) 10). pose proof (Z.mul_succ_div_gt (a - s) 10). lia.
  - intros (d & Hd & Ha). apply decadal_elem in Hd as (i & Hlt & ->).
    simpl in Ha. lia.
Qed.

(** Two periods whose windows share an age are the same period. *)
Lemma decadal_unique (a : Z) (d e : DecadalFortune) :
  d ∈ buildDecadalFortunes s order chart →
  e ∈ buildDecadalFortunes s order chart →
  startAge d ≤ a ≤ endAge d → startAge e ≤ a ≤ endAge e → d = e.
Proof.
  intros (i & Hi & ->)%decadal_elem (j & Hj & ->)%decadal_elem Hd He.
  simpl in Hd, He. f_equal. lia.
Qed.

End Decadal.

Lemma periodNames_orderToUse (astrolabe : EngineAstrolabe) (data : BirthData) (today : Date) :
  periodNames (calculateAstrolabe astrolabe data today)
  = orderToUse (yearStem astrolabe) (gender data).
Proof.
  unfold periodNames, calculateAstrolabe, orderToUse; simpl.
  by destruct (isForward _ _).
Qed.

(** The reverse list is the forward ring walked the other way from 命宮. *)
Lemma palaceOrderReverse_mirror :
  palaceOrderReverse = "命宮" :: reverse (tail palaceOrder).
Proof. reflexivity. Qed.

(** C1. The decadal periods walk [palaceOrder] exactly when the birth-year
    stem is yang and the subject male, or the stem is not yang and the subject
    not male, and walk [palaceOrderReverse], the same ring taken backwards
    from 命宮, exactly otherwise; for a birth-year stem among the ten stems
    that rule reads: a yang stem and male, or a yin stem and female. For a
    木三局 chart of a male subject the second period is the second palace of
    the forward order in a yang year and of the reverse order in a yin
    year. *)
Theorem decadal_direction (astrolabe : EngineAstrolabe) (data : BirthData) (today : Date) :
  let stem := yearStem astrolabe in
  let names := periodNames (calculateAstrolabe astrolabe data today) in
  (names = palaceOrder ↔ walksForward stem (gender data))
  ∧ (names = palaceOrderReverse ↔ ¬ walksForward stem (gender data))
  ∧ (stem ∈ heavenlyStems →
     (walksForward stem (gender data) ↔ yangMaleOrYinFemale stem (gender data)))
  ∧ palaceOrderReverse = "命宮" :: reverse (tail palaceOrder)
  ∧ (ea_fiveElementsClass astrolabe = "木三局" → gender data = Male →
     (stem ∈ yangStems → names !! 1%nat = palaceOrder !! 1%nat)
     ∧ (stem ∈ yinStems → names !! 1%nat = palaceOrderReverse !! 1%nat)).
Proof.
  intros stem names. subst stem names. rewrite periodNames_orderToUse.
  pose proof (isForward_walksForward (yearStem astrolabe) (gender data)) as Hrule.
  unfold orderToUse.
  destruct (isForward (yearStem astrolabe) (gender data)) eqn:Hfwd.
  - assert (walksForward (yearStem astrolabe) (gender data)) as Hw by by apply Hrule.
    split; [ done | ]. split; [ done | ].
    split; [ apply walksForward_yin | ]. split; [ done | ].
    intros _ Hmale. split; [ done | ].
    intros Hyin%yin_not_yang.
    destruct Hw as [[Hyang _] | [_ Hfemale]]; done.
  - assert (¬ walksForward (yearStem astrolabe) (gender data)) as Hw
      by (intros Hw; apply Hrule in Hw; done).
    split; [ done | ]. split; [ done | ].
    split; [ apply walksForward_yin | ]. split; [ done | ].
    intros _ Hmale. split; [ | done ].
    intros Hyang. exfalso. apply Hw. left. by split.
Qed.

(** C2. Whatever the class, the direction and the palaces, there are twelve
    periods; the period numbered [i] spans the ages [s + 10(i-1)] to
    [s + 10i - 1], where [s] is the starting age of the class; each window
    is ten years wide and starts the year after the previous one ends; every
    age from [s] to [s + 119] lies in a window and no age lies in two. For
    水二局 the first window is 2 to 11 and the twelfth 112 to 121. *)
Theorem decadal_windows (astrolabe : EngineAstrolabe) (data : BirthData) (today : Date) :
  let s := getStartAge (ea_fiveElementsClass astrolabe) in
  let fortunes := decadalFortunes (calculateAstrolabe astrolabe data today) in
  length fortunes = 12%nat
  ∧ (λ d, (d_index d, startAge d, endAge d)) <$> fortunes
    = (λ i, (i, s + 10 * (i - 1), s + 10 * i - 1)) <$> seqZ 1 12
  ∧ (∀ d, d ∈ fortunes → endAge d = startAge d + 9)
  ∧ (∀ i d e, fortunes !! i = Some d → fortunes !! S i = Some e →
       startAge e = endAge d + 1)
  ∧ (∀ a, s ≤ a ≤ s + 119 ↔ ∃ d, d ∈ fortunes ∧ startAge d ≤ a ≤ endAge d)
  ∧ (∀ a d e, d ∈ fortunes → e ∈ fortunes →
       startAge d ≤ a ≤ endAge d → startAge e ≤ a ≤ endAge e → d = e)
  ∧ (ea_fiveElementsClass astrolabe = "水二局" →
       (λ d, (startAge d, endAge d)) <$> fortunes !! 0%nat = Some (2, 11)
       ∧ (λ d, (startAge d, endAge d)) <$> fortunes !! 11%nat = Some (112, 121)).
Proof.
  intros s fortunes. subst fortunes. unfold calculateAstrolabe; simpl. fold s.
  split; [ reflexivity | ].
  split; [ | split; [ apply decadal_width | split; [ apply decadal_contiguous | ] ] ].
  2: split; [ apply decadal_cover | split; [ apply decadal_unique | ] ].
  - change (seqZ 1 12) with [1; 2; 3; 4; 5; 6; 7; 8; 9; 10; 11; 12].
    unfold buildDecadalFortunes; simpl. repeat (f_equal; try lia).
  - intros Hclass. subst s. rewrite Hclass. split; reflexivity.
Qed.

(** C5. For the periods of any chart and any age: when the age lies between
    the class's starting age and the end of the twelfth period, the search
    returns a period of the sequence whose window holds the age, and no
    other period's window does; when the age is below the starting age or
    past the twelfth period, the search returns nothing. *)
Theorem selectCurrent_unique_or_none
    (astrolabe : EngineAstrolabe) (data : BirthData) (today : Date) (a : Z) :
  let s := getStartAge (ea_fiveElementsClass astrolabe) in
  let fortunes := decadalFortunes (calculateAstrolabe astrolabe data today) in
  (s ≤ a ≤ s + 119 →
     ∃ d, selectCurrent fortunes a = Some d
          ∧ d ∈ fortunes ∧ startAge d ≤ a ≤ endAge d
          ∧ ∀ e, e ∈ fortunes → startAge e ≤ a ≤ endAge e → e = d)
  ∧ (a < s ∨ s + 119 < a → selectCurrent fortunes a = None)
  ∧ currentDecadal (calculateAstrolabe astrolabe data today)
    = selectCurrent fortunes (age (calculateAstrolabe astrolabe data today)).
Proof.
  intros s fortunes. subst fortunes. unfold calculateAstrolabe; simpl. fold s.
  set (order := orderToUse _ _). set (chart := _ <$> ea_palaces astrolabe).
  pose proof (decadal_cover s order chart a) as Hcover.
  set (fortunes := buildDecadalFortunes s order chart) in *.
  split; [ | split; [ | reflexivity ] ].
  - intros Hin. apply Hcover in Hin as (d0 & Hd0 & Ha0).
    destruct (selectCurrent fortunes a) as [d | ] eqn:Hsel.
    + pose proof (find_some _ _ Hsel) as [Hd Hwin]. apply list_elem_of_In in Hd.
      apply andb_prop in Hwin as [H1%bool_decide_eq_true H2%bool_decide_eq_true].
      exists d. do 3 (split; [ done | ]).
      intros e He Hwe. by apply (decadal_unique s order chart a e d He Hd).
    + exfalso. apply list_elem_of_In in Hd0.
      pose proof (find_none _ _ Hsel d0 Hd0) as Hno.
      apply andb_false_iff in Hno as [Hno%bool_decide_eq_false | Hno%bool_decide_eq_false]; lia.
  - intros Hout.
    destruct (selectCurrent fortunes a) as [d | ] eqn:Hsel; [ exfalso | done ].
    apply find_some in Hsel as [Hd Hwin]. apply list_elem_of_In in Hd.
    apply andb_prop in Hwin as [H1%bool_decide_eq_true H2%bool_decide_eq_true].
    assert (s ≤ a ≤ s + 119) by (apply Hcover; eauto).
    lia.
Qed.

(** ** Star overlay over the palaces *)

Lemma overlayStar_overlaid (palaceBranch : string) (engineStars : list StarData) :
  overlaid palaceBranch engineStars (overlayStar palaceBranch <$> engineStars).
Proof.
  unfold overlaid. induction engineStars as [ | s l IH]; [ done | ].
  rewrite !fmap_cons. by f_equal.
Qed.

Lemma mapPalace_majorMinorOverlaid (bodyPalaceBranch : string) (enginePalace : EnginePalace) :
  majorMinorOverlaid enginePalace (mapPalace bodyPalaceBranch enginePalace).
Proof.
  unfold majorMinorOverlaid; simpl.
  split; [ done | ].
  split; [ apply overlayStar_overlaid | ].
  split; [ apply overlayStar_overlaid | ].
  induction (ep_adjectiveStars enginePalace) as [ | s l (IHn & IHt & IHb)]; simpl.
  - by repeat split.
  - split; [ by f_equal | split; [ by f_equal | by constructor ] ].
Qed.

(** C4, as the code has it. In every palace of the result the brightness of
    each major and each minor star is [getStarBrightness] of the engine's
    star in that palace's branch; the adjective stars are copied by name and
    type only and carry no brightness. *)
Theorem palaces_major_minor_overlaid
    (astrolabe : EngineAstrolabe) (data : BirthData) (today : Date) :
  Forall2 majorMinorOverlaid
    (ea_palaces astrolabe) (palaces (calculateAstrolabe astrolabe data today)).
Proof.
  unfold calculateAstrolabe; simpl.
  induction (ea_palaces astrolabe) as [ | p l IH]; simpl; constructor.
  - apply mapPalace_majorMinorOverlaid.
  - apply IH.
Qed.

(** C4, as stated, fails: the sample chart has the adjective star 紅鸞 in 子
    with an engine brightness, and the result drops it. *)
Lemma adjective_stars_not_overlaid :
  ¬ Forall2 allStarsOverlaid
      samplePalaces
      (palaces (calculateAstrolabe woodYangChart sampleData sampleToday)).
Proof.
  intros Hall.
  apply (Forall2_lookup_lr _ _ _ 10%nat
           (samplePalace "田宅宮" "丙" "子")
           (mapPalace "亥" (samplePalace "田宅宮" "丙" "子"))) in Hall;
    [ | reflexivity | reflexivity ].
  destruct Hall as (_ & _ & Hadj). vm_compute in Hadj. discriminate Hadj.
Qed.

(** ** Origin palace *)

(** Among palaces of pairwise distinct branches, [find] by branch returns
    the palace that has the branch. *)
Lemma find_by_branch (chart : list PalaceData) (b : string) (p : PalaceData) :
  NoDup (earthlyBranch <$> chart) → p ∈ chart → earthlyBranch p = b →
  find (λ q, bool_decide (earthlyBranch q = b)) chart = Some p.
Proof.
  induction chart as [ | q l IH]; intros Hnd Hp Hb; [ by apply elem_of_nil in Hp | ].
  rewrite fmap_cons in Hnd. apply NoDup_cons in Hnd as [Hq Hnd].
  simpl. case_bool_decide as Hqb.
  - apply elem_of_cons in Hp as [-> | Hp]; [ done | ].
    exfalso. apply Hq. rewrite Hqb, <- Hb. apply list_elem_of_fmap. eauto.
  - apply elem_of_cons in Hp as [-> | Hp]; [ done | ]. by apply IH.
Qed.

Lemma find_by_branch_none (chart : list PalaceData) (b : string) :
  (∀ p, p ∈ chart → earthlyBranch p ≠ b) →
  find (λ q, bool_decide (earthlyBranch q = b)) chart = None.
Proof.
  intros Hno. induction chart as [ | q l IH]; [ done | ].
  simpl. case_bool_decide as Hqb.
  - exfalso. apply (Hno q); [ left | done ].
  - apply IH. intros p Hp. apply Hno. by right.
Qed.

(** C6. [originMapping] has ten entries, one for each yang and yin stem. The
    returned branch is the table's entry for the stem, and 子, the first
    branch of the ring, for anything else. The returned palace name is 命宮
    when no palace has that branch and, the palaces having pairwise distinct
    branches, the name of the palace that has it. 甲 gives 戌, and with
    父母宮 on 戌 the result is 戌 and 父母宮. *)
Theorem calculateOriginPalace_result (stem : string) (chart : list PalaceData) :
  let r := calculateOriginPalace stem chart in
  (size originMapping = 10%nat
   ∧ dom originMapping = list_to_set (yangStems ++ yinStems))
  ∧ (branch r = default "子" (originMapping !! stem)
     ∧ earthlyBranches !! 0%nat = Some "子")
  ∧ ((∀ p, p ∈ chart → earthlyBranch p ≠ branch r) → palace r = "命宮")
  ∧ (NoDup (earthlyBranch <$> chart) →
     ∀ p, p ∈ chart → earthlyBranch p = branch r → palace r = name p)
  ∧ (stem = "甲" →
     branch r = "戌"
     ∧ (NoDup (earthlyBranch <$> chart) →
        ∀ p, p ∈ chart → earthlyBranch p = "戌" → name p = "父母宮" →
        r = {| branch := "戌"; palace := "父母宮" |})).
Proof.
  intros r. subst r.
  split; [ split; by_evaluation | ].
  split; [ split; [ | reflexivity ] | ].
  { unfold calculateOriginPalace; simpl.
    destruct (originMapping !! stem) as [b | ] eqn:Hb; [ | done ].
    simpl. apply table_hit in Hb. entries Hb; injection Hb as _ ->; reflexivity. }
  split.
  { intros Hno. unfold calculateOriginPalace in *; simpl in *.
    by rewrite find_by_branch_none. }
  split.
  { intros Hnd p Hp Hb. unfold calculateOriginPalace in *; simpl in *.
    by rewrite (find_by_branch chart _ p). }
  intros ->. split; [ reflexivity | ].
  intros Hnd p Hp Hb Hname. unfold calculateOriginPalace.
  change (JS.or_str (originMapping !! "甲") "子") with "戌".
  rewrite (find_by_branch chart _ p); [ | done .. ].
  by rewrite Hname.
Qed.

(** ** Yearly period *)

(** In the birth year itself, a birth-year branch of the ring is returned
    as the year's branch. *)
Lemma currentYearBranch_birth_year (astrolabe : EngineAstrolabe) (y : Z) :
  birthYearBranch astrolabe ∈ earthlyBranches →
  currentYearBranch astrolabe y y = Some (birthYearBranch astrolabe).
Proof.
  intros Hring. unfold currentYearBranch, currentYearBranchIndex, birthBranchIndex.
  rewrite Z.sub_diag, Z.add_0_r.
  entries Hring; rewrite Hring; reflexivity.
Qed.

(** With a ring branch and a target year not before the birth year the
    index stays within the ring. *)
Lemma currentYearBranchIndex_in_ring (astrolabe : EngineAstrolabe) (birthYear currentYear : Z) :
  birthYearBranch astrolabe ∈ earthlyBranches → birthYear ≤ currentYear →
  0 ≤ currentYearBranchIndex astrolabe birthYear currentYear < 12.
Proof.
  intros Hring Hle. unfold currentYearBranchIndex, birthBranchIndex.
  assert (0 ≤ JS.indexOf (birthYearBranch astrolabe) earthlyBranches)
    by (entries Hring; rewrite Hring; vm_compute; discriminate).
  rewrite Z.rem_mod_nonneg by lia. apply Z.mod_pos_bound. lia.
Qed.

(** A missing or too short [chineseDate] makes 子, index 0, the birth-year
    branch. *)
Lemma birthBranchIndex_absent (astrolabe : EngineAstrolabe) :
  ea_chineseDate astrolabe = None ∨ (JS.charAt 1 <$> ea_chineseDate astrolabe) = Some EmptyString →
  birthYearBranch astrolabe = "子" ∧ birthBranchIndex astrolabe = 0.
Proof.
  unfold birthBranchIndex, birthYearBranch. by intros [-> | ->].
Qed.

(** C8 at a birth year after the current year. Born in 2040 (庚申, branch
    index 8) and computed in 2026, the index is [(8 - 14) % 12 = -6], the
    array access is undefined, and no palace is found. *)
Theorem yearly_index_negative_for_future_birth :
  let astrolabe := sampleChart "庚申 壬午 乙卯 戊寅" "木三局" in
  let r := calculateAstrolabe astrolabe (sampleBirth 2040 Male) sampleToday in
  birthBranchIndex astrolabe = 8
  ∧ currentYearBranchIndex astrolabe 2040 2026 = -6
  ∧ y_earthlyBranch (currentYearly r) = None
  ∧ y_palaceName (currentYearly r) = EmptyString.
Proof. repeat split. Qed.

(** C9 at a birth-year branch outside the ring. The second character of
    the date string is not a branch: [indexOf] gives -1, not 0. For birth
    year 2000 and current year 2026 the year's branch comes out as 丑,
    where a birth branch of 子 gives 寅, and in the birth year itself the
    index is -1 and the branch undefined. *)
Theorem birth_branch_outside_ring_gives_minus_one :
  let astrolabe := sampleChart "2000-8-16" "木三局" in
  let zi := sampleChart "庚子" "木三局" in
  birthYearBranch astrolabe = "0"
  ∧ (birthYearBranch astrolabe ∉ earthlyBranches)
  ∧ birthBranchIndex astrolabe = -1
  ∧ birthBranchIndex zi = 0
  ∧ currentYearBranch astrolabe 2000 2026 = Some "丑"
  ∧ currentYearBranch zi 2000 2026 = Some "寅"
  ∧ currentYearBranchIndex astrolabe 2000 2000 = -1
  ∧ currentYearBranch astrolabe 2000 2000 = None.
Proof.
  repeat split. by_evaluation.
Qed.

(** ** The sample charts, evaluated *)

Example second_period_yang_male :
  periodNames (calculateAstrolabe woodYangChart sampleData sampleToday) !! 1%nat
  = Some "父母宮".
Proof. reflexivity. Qed.

Example second_period_yin_male :
  periodNames (calculateAstrolabe woodYinChart (sampleBirth 1985 Male) sampleToday) !! 1%nat
  = Some "兄弟宮".
Proof. reflexivity. Qed.

Example second_period_yin_female :
  periodNames (calculateAstrolabe woodYinChart (sampleBirth 1985 Female) sampleToday) !! 1%nat
  = Some "父母宮".
Proof. reflexivity. Qed.

Example water_windows :
  ageWindows (calculateAstrolabe waterChart sampleData sampleToday)
  = [(2, 11); (12, 21); (22, 31); (32, 41); (42, 51); (52, 61);
     (62, 71); (72, 81); (82, 91); (92, 101); (102, 111); (112, 121)].
Proof. reflexivity. Qed.

Example sample_ages :
  calculateAge 1984 6 15 sampleToday = {| ages_realAge := 42; ages_age := 43 |}
  ∧ calculateAge 1984 12 15 sampleToday = {| ages_realAge := 41; ages_age := 42 |}
  ∧ calculateAge 2040 6 15 sampleToday = {| ages_realAge := 0; ages_age := 1 |}.
Proof. repeat split. Qed.

(** ** The theorems at the sample charts *)

Lemma decadal_direction_witness :
  (yearStem woodYangChart ∈ heavenlyStems
   ∧ yangMaleOrYinFemale (yearStem woodYangChart) (gender sampleData)
   ∧ periodNames (calculateAstrolabe woodYangChart sampleData sampleToday) = palaceOrder)
  ∧ (yearStem woodYinChart ∈ yinStems
     ∧ periodNames (calculateAstrolabe woodYinChart sampleData sampleToday) !! 1%nat
       = palaceOrderReverse !! 1%nat).
Proof.
  destruct (decadal_direction woodYangChart sampleData sampleToday)
    as (Hforward & _ & Hwords & _ & _).
  destruct (decadal_direction woodYinChart sampleData sampleToday)
    as (_ & _ & _ & _ & Hsecond).
  assert (yearStem woodYangChart ∈ heavenlyStems) as Hstem by by_evaluation.
  assert (yearStem woodYinChart ∈ yinStems) as Hyin by by_evaluation.
  assert (yangMaleOrYinFemale (yearStem woodYangChart) (gender sampleData)) as Hrule.
  { left. split; [ by_evaluation | reflexivity ]. }
  split; [ split; [ exact Hstem | split; [ exact Hrule | ] ] | split; [ exact Hyin | ] ].
  - apply Hforward. apply (Hwords Hstem). exact Hrule.
  - destruct (Hsecond eq_refl eq_refl) as [_ Hreverse]. apply Hreverse. exact Hyin.
Defined.

Lemma decadal_windows_witness :
  ea_fiveElementsClass waterChart = "水二局"
  ∧ ageWindows (calculateAstrolabe waterChart sampleData sampleToday) !! 0%nat = Some (2, 11)
  ∧ ageWindows (calculateAstrolabe waterChart sampleData sampleToday) !! 11%nat = Some (112, 121).
Proof.
  split; [ reflexivity | ].
  destruct (decadal_windows waterChart sampleData sampleToday)
    as (_ & _ & _ & _ & _ & _ & Hwater).
  unfold ageWindows. rewrite !list_lookup_fmap. apply Hwater. reflexivity.
Defined.

Lemma selectCurrent_unique_or_none_witness :
  (getStartAge (ea_fiveElementsClass woodYangChart) ≤ 43
     ≤ getStartAge (ea_fiveElementsClass woodYangChart) + 119
   ∧ ∃ d, selectCurrent (decadalFortunes (calculateAstrolabe woodYangChart sampleData sampleToday)) 43
          = Some d
          ∧ d_index d = 5)
  ∧ ((1 < getStartAge (ea_fiveElementsClass woodYangChart)
      ∨ getStartAge (ea_fiveElementsClass woodYangChart) + 119 < 1)
     ∧ selectCurrent (decadalFortunes (calculateAstrolabe woodYangChart sampleData sampleToday)) 1
       = None).
Proof.
  destruct (selectCurrent_unique_or_none woodYangChart sampleData sampleToday 43)
    as (Hinside & _ & _).
  destruct (selectCurrent_unique_or_none woodYangChart sampleData sampleToday 1)
    as (_ & Houtside & _).
  assert (getStartAge (ea_fiveElementsClass woodYangChart) = 3) as Hs by reflexivity.
  split; split.
  - rewrite Hs. lia.
  - destruct Hinside as (d & Hd & _); [ rewrite Hs; lia | ].
    exists d. split; [ exact Hd | ].
    vm_compute in Hd. injection Hd as <-. reflexivity.
  - left. rewrite Hs. lia.
  - apply Houtside. left. rewrite Hs. lia.
Defined.

Lemma getStartAge_unknown_class_witness :
  (("金七局" ∉ knownClasses) ∧ ("金七局" ∉ objectPrototypeMembers))
  ∧ (getStartAgeResult "金七局" = StartAgeNumber 5
     ∧ getStartAgeResult <$> knownClasses = StartAgeNumber <$> [2; 3; 4; 5; 6]
     ∧ ∀ (astrolabe earth : EngineAstrolabe) (data : BirthData) (today : Date),
         ea_fiveElementsClass astrolabe = "金七局" →
         ea_fiveElementsClass earth = "土五局" →
         ageWindows (calculateAstrolabe astrolabe data today)
         = ageWindows (calculateAstrolabe earth data today)).
Proof.
  split; [ split; by_evaluation | ].
  apply (getStartAge_unknown_class "金七局"); by_evaluation.
Defined.

Lemma calculateOriginPalace_result_witness :
  NoDup (earthlyBranch <$> palaces (calculateAstrolabe woodYangChart sampleData sampleToday))
  ∧ mapPalace "亥" (samplePalace "父母宮" "甲" "戌")
      ∈ palaces (calculateAstrolabe woodYangChart sampleData sampleToday)
  ∧ calculateOriginPalace (yearStem woodYangChart)
      (palaces (calculateAstrolabe woodYangChart sampleData sampleToday))
    = {| branch := "戌"; palace := "父母宮" |}.
Proof.
  assert (NoDup (earthlyBranch <$> palaces (calculateAstrolabe woodYangChart sampleData sampleToday)))
    as Hnd by by_evaluation.
  assert (mapPalace "亥" (samplePalace "父母宮" "甲" "戌")
            ∈ palaces (calculateAstrolabe woodYangChart sampleData sampleToday)) as Hin.
  { apply list_elem_of_lookup. exists 8%nat. reflexivity. }
  split; [ exact Hnd | split; [ exact Hin | ] ].
  destruct (calculateOriginPalace_result (yearStem woodYangChart)
              (palaces (calculateAstrolabe woodYangChart sampleData sampleToday)))
    as (_ & _ & _ & _ & Hjia).
  destruct (Hjia eq_refl) as [_ Hparents].
  apply (Hparents Hnd _ Hin); reflexivity.
Defined.

(** * Further properties of the code *)

(** ** Overlay *)

(** Overlaying twice is overlaying once. *)
Theorem getStarBrightness_idempotent
    (starName earthlyBranch : string) (originalBrightness : option string) :
  getStarBrightness starName earthlyBranch
    (getStarBrightness starName earthlyBranch originalBrightness)
  = getStarBrightness starName earthlyBranch originalBrightness
  ∧ ∀ star, overlayStar earthlyBranch (overlayStar earthlyBranch star)
            = overlayStar earthlyBranch star.
Proof.
  assert (∀ n x, getStarBrightness n earthlyBranch (getStarBrightness n earthlyBranch x)
                 = getStarBrightness n earthlyBranch x) as Hidem.
  { intros n x. unfold getStarBrightness.
    destruct (NI_SHI_BRIGHTNESS_OVERRIDE !! n) as [row | ]; [ | done ].
    destruct (row !! earthlyBranch) as [grade | ]; [ | done ].
    by case_decide. }
  split; [ apply Hidem | ].
  intros star. unfold overlayStar; simpl. by rewrite Hidem.
Qed.

(** For 太陰, 太陽 and 祿存 in a branch of the ring the overlay decides alone:
    the grade is one of the six of the table, never 陷, whatever the engine
    supplied. *)
Theorem getStarBrightness_overridden_star
    (starName earthlyBranch : string) (originalBrightness : option string) :
  starName ∈ overriddenStars → earthlyBranch ∈ earthlyBranches →
  (∃ grade, grade ∈ overrideGrades
            ∧ getStarBrightness starName earthlyBranch originalBrightness = Some grade)
  ∧ getStarBrightness starName earthlyBranch originalBrightness
    = getStarBrightness starName earthlyBranch None
  ∧ getStarBrightness starName earthlyBranch originalBrightness ≠ Some "陷".
Proof.
  intros Hstar Hbranch.
  entries Hstar; subst starName; entries Hbranch; subst earthlyBranch;
    (split; [ eexists; split; [ | reflexivity ]; by_evaluation
            | split; [ reflexivity | discriminate ] ]).
Qed.

(** In each of the twelve branches, every star other than 太陰, 太陽 and
    祿存 keeps the engine's brightness, absent included. *)
Theorem getStarBrightness_untouched
    (starName earthlyBranch : string) (originalBrightness : option string) :
  starName ∉ overriddenStars → earthlyBranch ∈ earthlyBranches →
  getStarBrightness starName earthlyBranch originalBrightness = originalBrightness.
Proof.
  intros Hstar _. unfold getStarBrightness.
  destruct (NI_SHI_BRIGHTNESS_OVERRIDE !! starName) as [row | ] eqn:Hrow; [ | done ].
  apply table_hit in Hrow.
  exfalso. apply Hstar.
  entries Hrow; injection Hrow as -> _; by_evaluation.
Qed.

(** ** Ages *)

(** Ages never go down as the clock advances. *)
Theorem calculateAge_monotone (birthYear birthMonth birthDay : Z) (t1 t2 : Date) :
  dateLe t1 t2 →
  ages_realAge (calculateAge birthYear birthMonth birthDay t1)
    ≤ ages_realAge (calculateAge birthYear birthMonth birthDay t2)
  ∧ ages_age (calculateAge birthYear birthMonth birthDay t1)
    ≤ ages_age (calculateAge birthYear birthMonth birthDay t2).
Proof.
  unfold dateLe, calculateAge; simpl. intros Hle.
  repeat case_decide; lia.
Qed.

(** A birth date that is today or in the future gives calendar age 0 and
    traditional age 1. *)
Theorem calculateAge_not_yet_born (birthYear birthMonth birthDay : Z) (today : Date) :
  notYetBorn birthYear birthMonth birthDay today →
  calculateAge birthYear birthMonth birthDay today = {| ages_realAge := 0; ages_age := 1 |}.
Proof.
  unfold notYetBorn, calculateAge. intros Hborn.
  case_decide; f_equal; lia.
Qed.

(** ** Searching the palaces by a key *)

Section Find.
Context {A : Type} (key : A → string) (f : A → bool) (k : string).
Hypothesis f_key : ∀ q, f q = true ↔ key q = k.

(** Among elements of pairwise distinct keys, [find] returns the one that
    has the key. *)
Lemma find_unique (l : list A) (p : A) :
  NoDup (key <$> l) → p ∈ l → key p = k → find f l = Some p.
Proof.
  induction l as [ | q l IH]; intros Hnd Hp Hk; [ by apply elem_of_nil in Hp | ].
  rewrite fmap_cons in Hnd. apply NoDup_cons in Hnd as [Hq Hnd].
  simpl. destruct (f q) eqn:Hfq.
  - apply f_key in Hfq. apply elem_of_cons in Hp as [-> | Hp]; [ done | ].
    exfalso. apply Hq. rewrite Hfq, <- Hk. apply list_elem_of_fmap. eauto.
  - apply elem_of_cons in Hp as [-> | Hp]; [ | by apply IH ].
    apply f_key in Hk. congruence.
Qed.

Lemma find_absent (l : list A) :
  (∀ p, p ∈ l → key p ≠ k) → find f l = None.
Proof.
  intros Hno. induction l as [ | q l IH]; [ done | ].
  simpl. destruct (f q) eqn:Hfq.
  - apply f_key in Hfq. exfalso. apply (Hno q); [ left | done ].
  - apply IH. intros p Hp. apply Hno. by right.
Qed.

End Find.

Lemma or_str_empty (s : string) : JS.or_str (Some s) EmptyString = s.
Proof. unfold JS.or_str. by case_decide. Qed.

(** ** Decadal periods and the palaces *)

Lemma orderToUse_Permutation (stem : string) (g : Gender) :
  orderToUse stem g ≡ₚ palaceOrder.
Proof.
  unfold orderToUse. destruct (isForward stem g); [ done | ].
  rewrite palaceOrderReverse_mirror. unfold palaceOrder at 2; simpl tail.
  constructor. apply reverse_Permutation.
Qed.

(** In either direction the twelve periods go through each of the twelve
    palace names once, starting at 命宮. *)
Theorem periodNames_each_palace_once
    (astrolabe : EngineAstrolabe) (data : BirthData) (today : Date) :
  let names := periodNames (calculateAstrolabe astrolabe data today) in
  names ≡ₚ palaceOrder ∧ NoDup names ∧ head names = Some "命宮".
Proof.
  intros names. subst names. rewrite periodNames_orderToUse.
  assert (NoDup palaceOrder) as Hnd by by_evaluation.
  split; [ apply orderToUse_Permutation | ].
  split; [ by rewrite orderToUse_Permutation | ].
  unfold orderToUse. by destruct (isForward _ _).
Qed.

(** The stem or branch a period takes from the palaces, by palace name. *)
Lemma decadalAt_palace (s : Z) (order : list string) (chart : list PalaceData)
    (i : nat) (p : PalaceData) :
  NoDup (name <$> chart) → p ∈ chart → name p = nth i order EmptyString →
  d_heavenlyStem (decadalAt s order chart i) = heavenlyStem p
  ∧ d_earthlyBranch (decadalAt s order chart i) = earthlyBranch p.
Proof.
  intros Hnd Hp Hname. unfold decadalAt; simpl.
  rewrite (find_unique name _ (nth i order EmptyString) (λ q, bool_decide_eq_true _) chart p);
    [ | done .. ].
  split; apply or_str_empty.
Qed.

(** A period carries the stem and the branch of the palace of its name,
    the palaces having pairwise distinct names, and two empty strings when
    no palace has the name. *)
Theorem decadal_period_palace
    (astrolabe : EngineAstrolabe) (data : BirthData) (today : Date)
    (d : DecadalFortune) :
  let r := calculateAstrolabe astrolabe data today in
  d ∈ decadalFortunes r →
  (NoDup (name <$> palaces r) →
   ∀ p, p ∈ palaces r → name p = d_palaceName d →
        d_heavenlyStem d = heavenlyStem p ∧ d_earthlyBranch d = earthlyBranch p)
  ∧ ((∀ p, p ∈ palaces r → name p ≠ d_palaceName d) →
     d_heavenlyStem d = EmptyString ∧ d_earthlyBranch d = EmptyString).
Proof.
  intros r Hd. subst r. unfold calculateAstrolabe in *; simpl in *.
  apply decadal_elem in Hd as (i & Hi & ->). split.
  - intros Hnd p Hp Hname. by apply decadalAt_palace.
  - intros Hno. unfold decadalAt; simpl in *.
    by rewrite (find_absent name _ _ (λ q, bool_decide_eq_true _)).
Qed.

(** On a chart that has each of the twelve palace names once, the branches
    of the twelve periods are the branches of the chart, each once: over
    120 years every palace is visited exactly once. *)
Theorem decadal_periods_visit_every_palace
    (astrolabe : EngineAstrolabe) (data : BirthData) (today : Date) :
  let r := calculateAstrolabe astrolabe data today in
  name <$> palaces r ≡ₚ palaceOrder →
  d_earthlyBranch <$> decadalFortunes r ≡ₚ earthlyBranch <$> palaces r
  ∧ d_heavenlyStem <$> decadalFortunes r ≡ₚ heavenlyStem <$> palaces r.
Proof.
  intros r Hnames.
  pose proof (orderToUse_Permutation (yearStem astrolabe) (gender data)) as Hperm.
  rewrite <- (periodNames_orderToUse astrolabe data today) in Hperm.
  fold r in Hperm. unfold periodNames in Hperm.
  assert (NoDup (name <$> palaces r)) as Hnd.
  { rewrite Hnames. by_evaluation. }
  set (chart := palaces r) in *.
  assert (decadalFortunes r
          = buildDecadalFortunes (getStartAge (ea_fiveElementsClass astrolabe))
              (orderToUse (yearStem astrolabe) (gender data)) chart) as Hf by reflexivity.
  rewrite Hf in *. clearbody chart. clear Hf r.
  set (pick := λ (field : PalaceData → string) (n : string),
         JS.or_str (field <$> find (λ q, bool_decide (name q = n)) chart) EmptyString).
  assert (∀ field, field <$> chart = pick field <$> (name <$> chart)) as Hchart.
  { intros field. rewrite <- list_fmap_compose. apply list_fmap_ext.
    intros i p Hp%list_elem_of_lookup_2. unfold pick; simpl.
    rewrite (find_unique name _ (name p) (λ q, bool_decide_eq_true _) chart p);
      [ | done .. ].
    symmetry. apply or_str_empty. }
  assert (d_earthlyBranch <$> buildDecadalFortunes (getStartAge (ea_fiveElementsClass astrolabe))
              (orderToUse (yearStem astrolabe) (gender data)) chart
          = pick earthlyBranch <$> (d_palaceName <$> buildDecadalFortunes (getStartAge (ea_fiveElementsClass astrolabe))
              (orderToUse (yearStem astrolabe) (gender data)) chart)) as Hb.
  { rewrite <- list_fmap_compose. apply list_fmap_ext.
    intros i d (j & Hi & ->)%list_elem_of_lookup_2%decadal_elem. reflexivity. }
  assert (d_heavenlyStem <$> buildDecadalFortunes (getStartAge (ea_fiveElementsClass astrolabe))
              (orderToUse (yearStem astrolabe) (gender data)) chart
          = pick heavenlyStem <$> (d_palaceName <$> buildDecadalFortunes (getStartAge (ea_fiveElementsClass astrolabe))
              (orderToUse (yearStem astrolabe) (gender data)) chart)) as Hs.
  { rewrite <- list_fmap_compose. apply list_fmap_ext.
    intros i d (j & Hi & ->)%list_elem_of_lookup_2%decadal_elem. reflexivity. }
  rewrite Hb, Hs, (Hchart earthlyBranch), (Hchart heavenlyStem).
  rewrite Hperm, Hnames. done.
Qed.

(** The current period is the one numbered [(age - s) / 10 + 1], and a
    traditional age of 1 has no current period in any class. *)
Theorem currentDecadal_index
    (astrolabe : EngineAstrolabe) (data : BirthData) (today : Date) :
  let r := calculateAstrolabe astrolabe data today in
  let s := getStartAge (ea_fiveElementsClass astrolabe) in
  (∀ d, currentDecadal r = Some d →
        d_index d = (age r - s) / 10 + 1
        ∧ startAge d = s + 10 * ((age r - s) / 10)
        ∧ 2 ≤ age r)
  ∧ (age r = 1 → currentDecadal r = None).
Proof.
  intros r s.
  pose proof (getStartAge_range (ea_fiveElementsClass astrolabe)) as Hs. fold s in Hs.
  set (order := orderToUse (yearStem astrolabe) (gender data)).
  set (chart := mapPalace (ea_earthlyBranchOfBodyPalace astrolabe) <$> ea_palaces astrolabe).
  change (currentDecadal r) with (selectCurrent (buildDecadalFortunes s order chart) (age r)).
  generalize (age r). intros a.
  assert (∀ d, selectCurrent (buildDecadalFortunes s order chart) a = Some d →
               ∃ i : nat, d_index d = Z.of_nat i + 1 ∧ startAge d = s + Z.of_nat i * 10
                          ∧ s + Z.of_nat i * 10 ≤ a ≤ s + Z.of_nat i * 10 + 9) as Hsel.
  { intros d Hd. apply find_some in Hd as [Hd Hwin]. apply list_elem_of_In in Hd.
    apply andb_prop in Hwin as [H1%bool_decide_eq_true H2%bool_decide_eq_true].
    apply decadal_elem in Hd as (i & Hi & ->). simpl in *. exists i. lia. }
  split.
  - intros d (i & Hidx & Hstart & Hwin)%Hsel.
    assert ((a - s) / 10 = Z.of_nat i) as ->
      by (symmetry; apply (Z.div_unique _ _ _ (a - s - 10 * Z.of_nat i)); lia).
    lia.
  - intros Hone.
    destruct (selectCurrent _ a) as [d | ] eqn:Hd; [ exfalso | done ].
    destruct (Hsel d eq_refl) as (i & _ & _ & Hwin). lia.
Qed.

(** ** Yearly period and the ring *)

Lemma indexOf_ring (b : string) :
  b ∈ earthlyBranches →
  0 ≤ JS.indexOf b earthlyBranches < 12
  ∧ earthlyBranches !! Z.to_nat (JS.indexOf b earthlyBranches) = Some b.
Proof. intros Hb. entries Hb; subst b; (split; [ by_evaluation | reflexivity ]). Qed.

Lemma ring_lookup (i : Z) :
  0 ≤ i < 12 → ∃ b, JS.index earthlyBranches i = Some b ∧ b ∈ earthlyBranches.
Proof.
  intros Hi. unfold JS.index. case_decide; [ lia | ].
  destruct (earthlyBranches !! Z.to_nat i) as [b | ] eqn:Hb.
  - exists b. split; [ done | ]. by apply list_elem_of_lookup_2 in Hb.
  - apply lookup_ge_None in Hb. simpl in Hb. lia.
Qed.

(** With a birth-year branch of the ring and a current year not before the
    birth year, the year's branch is the ring element [diff] steps after the
    birth-year branch: it is defined, it advances by one ring step each
    year, and it comes back every twelve years. *)
Theorem yearly_branch_cycle (astrolabe : EngineAstrolabe) (birthYear currentYear : Z) :
  birthYearBranch astrolabe ∈ earthlyBranches → birthYear ≤ currentYear →
  currentYearBranchIndex astrolabe birthYear currentYear
    = (birthBranchIndex astrolabe + (currentYear - birthYear)) `mod` 12
  ∧ (∃ b, currentYearBranch astrolabe birthYear currentYear = Some b ∧ b ∈ earthlyBranches)
  ∧ currentYearBranchIndex astrolabe birthYear (currentYear + 1)
    = (currentYearBranchIndex astrolabe birthYear currentYear + 1) `mod` 12
  ∧ currentYearBranch astrolabe birthYear (currentYear + 12)
    = currentYearBranch astrolabe birthYear currentYear.
Proof.
  intros Hring Hle.
  destruct (indexOf_ring _ Hring) as [Hidx _].
  unfold currentYearBranch, currentYearBranchIndex, birthBranchIndex.
  set (k := JS.indexOf (birthYearBranch astrolabe) earthlyBranches) in *.
  rewrite !Z.rem_mod_nonneg by lia.
  split; [ done | ].
  split; [ apply ring_lookup, Z.mod_pos_bound; lia | ].
  split.
  - rewrite Zplus_mod_idemp_l. f_equal. lia.
  - f_equal. replace (k + (currentYear + 12 - birthYear))
      with (k + (currentYear - birthYear) + 1 * 12) by lia.
    apply Z_mod_plus_full.
Qed.

(** What the yearly period takes from the palaces: with pairwise distinct
    branches, the name and the stem of the palace on the year's branch; and
    two empty strings when no palace is on it or the branch is undefined. *)
Theorem currentYearly_palace
    (astrolabe : EngineAstrolabe) (data : BirthData) (today : Date) :
  let r := calculateAstrolabe astrolabe data today in
  y_year (currentYearly r) = getFullYear today
  ∧ y_age (currentYearly r) = age r
  ∧ (NoDup (earthlyBranch <$> palaces r) →
     ∀ p, p ∈ palaces r → y_earthlyBranch (currentYearly r) = Some (earthlyBranch p) →
          y_palaceName (currentYearly r) = name p
          ∧ y_heavenlyStem (currentYearly r) = heavenlyStem p)
  ∧ ((∀ p, p ∈ palaces r → y_earthlyBranch (currentYearly r) ≠ Some (earthlyBranch p)) →
     y_palaceName (currentYearly r) = EmptyString
     ∧ y_heavenlyStem (currentYearly r) = EmptyString).
Proof.
  intros r. subst r. unfold calculateAstrolabe, buildCurrentYearly; cbn -[calculateAge].
  set (chart := mapPalace _ <$> _).
  set (yb := currentYearBranch _ _ _).
  split; [ done | split; [ done | split ] ].
  - intros Hnd p Hp Hyb.
    rewrite (find_unique earthlyBranch _ (earthlyBranch p)
               (λ q, conj (λ H, Some_inj _ _ (eq_trans (bool_decide_eq_true_1 _ H) Hyb))
                          (λ H, bool_decide_eq_true_2 _ (eq_trans (f_equal Some H) (eq_sym Hyb))))
               chart p); [ | done .. ].
    split; apply or_str_empty.
  - intros Hno.
    assert (find (λ q, bool_decide (Some (earthlyBranch q) = yb)) chart = None) as ->; [ | done ].
    induction chart as [ | q l IH]; [ done | ]. simpl. case_bool_decide as Hq.
    + exfalso. apply (Hno q); [ left | done ].
    + apply IH. intros p Hp. apply Hno. by right.
Qed.

(** ** Origin palace *)

Lemma origin_branch_in_ring (stem : string) (chart : list PalaceData) :
  branch (calculateOriginPalace stem chart) ∈ earthlyBranches.
Proof.
  unfold calculateOriginPalace; simpl.
  destruct (originMapping !! stem) as [b | ] eqn:Hs; [ | by_evaluation ].
  apply table_hit in Hs. entries Hs; injection Hs as _ ->; by_evaluation.
Qed.

(** The origin branch is always a branch of the ring and never 丑; it is 子
    only for a stem outside the table; and distinct stems of the table have
    distinct origin branches. *)
Theorem origin_branch_range (stem : string) (chart : list PalaceData) :
  let b := branch (calculateOriginPalace stem chart) in
  b ∈ earthlyBranches
  ∧ b ≠ "丑"
  ∧ (b = "子" ↔ stem ∉ heavenlyStems)
  ∧ ∀ stem' chart', stem ∈ heavenlyStems → stem' ∈ heavenlyStems →
      branch (calculateOriginPalace stem' chart') = b → stem' = stem.
Proof.
  assert (∀ s c, branch (calculateOriginPalace s c) = default "子" (originMapping !! s)) as Hb.
  { intros s c. unfold calculateOriginPalace; simpl.
    destruct (originMapping !! s) as [b | ] eqn:Hs; [ | done ].
    simpl. apply table_hit in Hs. entries Hs; injection Hs as _ ->; reflexivity. }
  intros b. subst b. rewrite Hb.
  destruct (originMapping !! stem) as [b | ] eqn:Hs; simpl.
  - apply table_hit in Hs.
    entries Hs; injection Hs as -> ->;
      (split; [ by_evaluation | split; [ discriminate | split ] ];
       [ split; [ discriminate | intros Hn; exfalso; apply Hn; by_evaluation ]
       | intros stem' chart' _ Hstem';
         entries Hstem'; subst stem'; vm_compute; congruence ]).
  - split; [ by_evaluation | split; [ discriminate | split ] ].
    + split; [ intros _ | done ].
      intros Hin. entries Hin; subst stem; vm_compute in Hs; discriminate.
    + intros stem' chart' Hin. exfalso.
      entries Hin; subst stem; vm_compute in Hs; discriminate.
Qed.

(** On a chart that has a palace on each of the twelve branches, once, the
    origin palace is a palace of the chart on the origin branch: the 命宮
    fallback is not used. *)
Theorem origin_palace_on_complete_chart (stem : string) (chart : list PalaceData) :
  earthlyBranch <$> chart ≡ₚ earthlyBranches →
  ∃ p, p ∈ chart
       ∧ earthlyBranch p = branch (calculateOriginPalace stem chart)
       ∧ name p = palace (calculateOriginPalace stem chart).
Proof.
  intros Hperm.
  pose proof (origin_branch_in_ring stem chart) as Hring.
  assert (NoDup (earthlyBranch <$> chart)) as Hnd by (rewrite Hperm; by_evaluation).
  rewrite <- Hperm in Hring. apply list_elem_of_fmap in Hring as (p & Hp & Hin).
  exists p. split; [ done | split; [ done | ] ].
  unfold calculateOriginPalace in *; simpl in *.
  by rewrite (find_unique earthlyBranch _ _ (λ q, bool_decide_eq_true _) chart p).
Qed.

(** Without a first character in [chineseDate] the page computes the origin
    palace as for the yang stem 甲, on 戌, while [calculateAstrolabe] takes
    the year as not yang and walks a male subject's periods in reverse. *)
Theorem handleSubmit_origin_without_stem
    (astrolabe : EngineAstrolabe) (data : BirthData) (today : Date) :
  yearStem astrolabe = EmptyString →
  branch (handleSubmit_origin astrolabe data today) = "戌"
  ∧ (gender data = Male →
     periodNames (calculateAstrolabe astrolabe data today) = palaceOrderReverse)
  ∧ (gender data = Female →
     periodNames (calculateAstrolabe astrolabe data today) = palaceOrder).
Proof.
  intros Hstem. split.
  - unfold handleSubmit_origin, yearStem, JS.or_str in *.
    destruct (JS.charAt 0 <$> ea_chineseDate astrolabe) as [c | ]; [ | reflexivity ].
    destruct (decide (c = EmptyString)) as [Hc | Hc]; [ reflexivity | done ].
  - rewrite periodNames_orderToUse, Hstem. split; intros ->; reflexivity.
Qed.

(** With a stem of the table as first character, the page's origin palace is
    [calculateOriginPalace] at the stem that decides the direction. *)
Lemma handleSubmit_origin_with_stem
    (astrolabe : EngineAstrolabe) (data : BirthData) (today : Date) :
  yearStem astrolabe ≠ EmptyString →
  handleSubmit_origin astrolabe data today
  = calculateOriginPalace (yearStem astrolabe)
      (palaces (calculateAstrolabe astrolabe data today)).
Proof.
  intros Hstem. unfold handleSubmit_origin, yearStem, JS.or_str in *.
  destruct (JS.charAt 0 <$> ea_chineseDate astrolabe) as [c | ]; [ | done ].
  by case_decide.
Qed.

(** ** The palaces dictionary of the backend requests *)

Section FoldInsert.
Context {A V : Type} (key : A → string) (val : A → V).

(** After writing the elements in turn, a key holds the value of the last
    element written under it. *)
Lemma insertAll_lookup (l : list A) (n : string) :
  insertAll key val ∅ l !! n = val <$> last (filter (λ x, key x = n) l).
Proof.
  unfold insertAll. induction l as [ | x l IH] using rev_ind; [ done | ].
  rewrite foldl_app, filter_app. simpl.
  destruct (decide (key x = n)) as [Hx | Hx].
  - rewrite Hx, lookup_insert_eq.
    rewrite filter_cons_True, filter_nil by done. by rewrite last_snoc.
  - rewrite lookup_insert_ne by done.
    rewrite filter_cons_False, filter_nil, app_nil_r by done. apply IH.
Qed.

Lemma filter_none (P : A → Prop) `{!∀ x, Decision (P x)} (l : list A) :
  (∀ y, y ∈ l → ¬ P y) → filter P l = [].
Proof.
  induction l as [ | x l IH]; intros Hno; [ done | ].
  rewrite filter_cons_False by (apply Hno; left).
  apply IH. intros y Hy. apply Hno. by right.
Qed.

Lemma filter_key_unique (l : list A) (p : A) :
  NoDup (key <$> l) → p ∈ l → filter (λ x, key x = key p) l = [p].
Proof.
  induction l as [ | x l IH]; intros Hnd Hp; [ by apply elem_of_nil in Hp | ].
  rewrite fmap_cons in Hnd. apply NoDup_cons in Hnd as [Hx Hnd].
  apply elem_of_cons in Hp as [-> | Hp].
  - rewrite filter_cons_True by done. f_equal.
    apply filter_none. intros y Hy Heq.
    apply Hx. rewrite <- Heq. apply list_elem_of_fmap. eauto.
  - rewrite filter_cons_False; [ by apply IH | ].
    intros Heq. apply Hx. rewrite Heq. apply list_elem_of_fmap. eauto.
Qed.

Lemma insertAll_distinct (l : list A) (p : A) :
  NoDup (key <$> l) → p ∈ l → insertAll key val ∅ l !! key p = Some (val p).
Proof.
  intros Hnd Hp. by rewrite insertAll_lookup, filter_key_unique.
Qed.

End FoldInsert.

(** After the loop the dictionary has exactly the palace names as keys, and
    under a name the entry of the last palace of that name: a palace that
    shares its name with a later one is not sent. *)
Theorem palacesDict_last_wins (chart : list PalaceData) (n : string) :
  handleAIReading_palacesDict chart !! n
    = palaceEntry <$> last (filter (λ p, name p = n) chart)
  ∧ (is_Some (handleAIReading_palacesDict chart !! n) ↔ n ∈ name <$> chart)
  ∧ (size (handleAIReading_palacesDict chart) ≤ length chart)%nat.
Proof.
  change (handleAIReading_palacesDict chart) with (insertAll name palaceEntry ∅ chart).
  split; [ apply insertAll_lookup | split ].
  - rewrite insertAll_lookup, fmap_is_Some, list_elem_of_fmap. split.
    + intros [p Hp]. apply last_Some_elem_of, list_elem_of_filter in Hp as [Hn Hp]. eauto.
    + intros (p & -> & Hp).
      destruct (last (filter (λ q, name q = name p) chart)) as [q | ] eqn:Hq; [ eauto | ].
      apply last_None in Hq. exfalso.
      by apply (filter_nil_not_elem_of (λ q, name q = name p) chart p).
  - unfold insertAll. induction chart as [ | p l IH] using rev_ind; [ done | ].
    rewrite foldl_app, length_app. simpl.
    rewrite map_size_insert. destruct (_ !! name p); simpl; lia.
Qed.

(** With pairwise distinct palace names nothing is lost: every palace is
    found under its name with its branch, its stem and its major stars
    followed by its minor stars. *)
Theorem palacesDict_distinct_names (chart : list PalaceData) (p : PalaceData) :
  NoDup (name <$> chart) → p ∈ chart →
  handleAIReading_palacesDict chart !! name p = Some (palaceEntry p)
  ∧ size (handleAIReading_palacesDict chart) = length chart.
Proof.
  intros Hnd Hp.
  change (handleAIReading_palacesDict chart) with (insertAll name palaceEntry ∅ chart).
  split; [ by apply insertAll_distinct | ].
  clear p Hp. unfold insertAll.
  induction chart as [ | p l IH] using rev_ind; [ done | ].
  rewrite fmap_app in Hnd. apply NoDup_app in Hnd as (Hl & Hp & _).
  rewrite foldl_app, length_app. simpl.
  rewrite map_size_insert_None; [ rewrite IH by done; lia | ].
  change (foldl _ ∅ l) with (insertAll name palaceEntry ∅ l).
  apply eq_None_not_Some. rewrite insertAll_lookup, fmap_is_Some.
  intros [q Hq]. apply last_Some_elem_of, list_elem_of_filter in Hq as [Hn Hq].
  apply (Hp (name p)); [ | left ]. rewrite <- Hn. apply list_elem_of_fmap. eauto.
Qed.

Lemma convert_fold (m : gmap string DictEntry) (chart : list PalaceData) :
  foldl (λ palacesDict palace,
           <[cp_name palace :=
               dictEntry (cp_earthlyBranch palace) (cp_heavenlyStem palace)
                 (cp_majorStars palace) (cp_minorStars palace)]> palacesDict)
        m (convertPalacesToAPIFormat chart)
  = insertAll name palaceEntry m chart.
Proof.
  unfold convertPalacesToAPIFormat, insertAll. revert m.
  induction chart as [ | p l IH]; intros m; [ done | ].
  rewrite fmap_cons. simpl. rewrite IH. f_equal. f_equal.
  unfold palaceEntry, dictEntry. f_equal. by rewrite <- !list_fmap_compose.
Qed.

(** The analysis request, built from the converted palaces, and the AI
    reading request, built from the chart's palaces, carry the same
    dictionary. *)
Theorem analyzeChart_palacesDict_convert (chart : list PalaceData) :
  analyzeChart_palacesDict (convertPalacesToAPIFormat chart)
  = handleAIReading_palacesDict chart.
Proof.
  unfold analyzeChart_palacesDict. rewrite convert_fold. reflexivity.
Qed.

(** From the engine to the analysis request: with pairwise distinct names,
    each engine palace is sent under its name with its branch and stem, its
    major and minor stars with the overlaid brightness and the engine's
    mutagen, and none of its adjective stars. *)
Theorem handleSubmit_palacesDict_overlaid
    (astrolabe : EngineAstrolabe) (data : BirthData) (today : Date) (e : EnginePalace) :
  NoDup (ep_name <$> ea_palaces astrolabe) → e ∈ ea_palaces astrolabe →
  handleSubmit_palacesDict astrolabe data today !! ep_name e = Some (enginePalaceEntry e)
  ∧ de_stars (enginePalaceEntry e)
    = (λ s, {| ds_name := star_name s;
               ds_brightness := getStarBrightness (star_name s) (ep_earthlyBranch e) (brightness s);
               ds_mutagen := mutagen s |}) <$> (ep_majorStars e ++ ep_minorStars e)%list.
Proof.
  intros Hnd He. split.
  - unfold handleSubmit_palacesDict, analyzeChart_palacesDict. rewrite convert_fold.
    unfold calculateAstrolabe; cbn [palaces].
    set (body := ea_earthlyBranchOfBodyPalace astrolabe).
    assert (NoDup (name <$> (mapPalace body <$> ea_palaces astrolabe))) as Hnd'
      by by rewrite <- list_fmap_compose.
    assert (mapPalace body e ∈ mapPalace body <$> ea_palaces astrolabe) as He'
      by (apply list_elem_of_fmap; eauto).
    exact (insertAll_distinct name palaceEntry _ _ Hnd' He').
  - unfold enginePalaceEntry, dictEntry; simpl.
    by rewrite fmap_app, <- !list_fmap_compose.
Qed.

(** The AI reading request of a computed chart carries the chart's
    traditional age: the fallback of 30 is taken only for an age of 0, which
    [calculateAstrolabe] never produces. *)
Theorem handleAIReading_age
    (astrolabe : EngineAstrolabe) (data : BirthData) (today : Date)
    (originPalace : option OriginPalace) :
  let r := calculateAstrolabe astrolabe data today in
  rq_age (handleAIReading_request r originPalace) = age r
  ∧ 1 ≤ age r
  ∧ ∀ other, age other = 0 → rq_age (handleAIReading_request other originPalace) = 30.
Proof.
  intros r. subst r. unfold handleAIReading_request, calculateAstrolabe, calculateAge; simpl.
  split; [ | split ].
  - unfold JS.or_num. case_decide; lia.
  - lia.
  - intros other ->. reflexivity.
Qed.

(** ** [indexOf] *)

Lemma indexOf_bounds (x : string) (l : list string) :
  -1 ≤ JS.indexOf x l < Z.of_nat (length l).
Proof.
  induction l as [ | y l IH]; simpl; [ lia | ].
  repeat case_decide; lia.
Qed.

Lemma indexOf_absent (x : string) (l : list string) :
  JS.indexOf x l = -1 ↔ x ∉ l.
Proof.
  induction l as [ | y l IH]; simpl.
  - split; [ intros _; apply not_elem_of_nil | done ].
  - pose proof (indexOf_bounds x l).
    rewrite not_elem_of_cons. repeat case_decide; split; intros; try lia; try tauto.
    + destruct_and?. congruence.
    + split; [ congruence | tauto ].
Qed.

(** [indexOf] finds the first position that holds the element. *)
Lemma indexOf_lookup (x : string) (l : list string) (i : nat) :
  JS.indexOf x l = Z.of_nat i ↔ l !! i = Some x ∧ x ∉ take i l.
Proof.
  revert i. induction l as [ | y l IH]; intros i; simpl.
  - split; [ lia | intros [Hl _]; done ].
  - pose proof (indexOf_bounds x l). destruct (decide (y = x)) as [-> | Hne].
    + destruct i as [ | i]; simpl.
      * split; [ intros _; split; [ done | apply not_elem_of_nil ] | done ].
      * split; [ lia | ]. intros [_ Hn]. exfalso. apply Hn. left.
    + destruct i as [ | i]; simpl.
      * split; [ case_decide; lia | intros [[=] _]; done ].
      * rewrite not_elem_of_cons. specialize (IH i).
        case_decide as Hr.
        -- split; [ lia | ]. intros [Hl [_ Hn]].
           assert (JS.indexOf x l = Z.of_nat i) by (apply IH; done). lia.
        -- split.
           ++ intros Hi. assert (JS.indexOf x l = Z.of_nat i) as Hi' by lia.
              apply IH in Hi' as [? ?]. done.
           ++ intros [Hl [_ Hn]].
              assert (JS.indexOf x l = Z.of_nat i) by (apply IH; done). lia.
Qed.

(** ** Three directions and four squares *)

Lemma getSanfangSizheng_outside (b : string) :
  b ∉ EARTHLY_BRANCHES → getSanfangSizheng b = [].
Proof.
  intros Hout. unfold getSanfangSizheng.
  apply indexOf_absent in Hout. by rewrite Hout.
Qed.

(** Outside the ring there are no related branches; for a branch of the
    ring there are four, pairwise distinct and of the ring: the branch
    itself first, then the branch six steps on, four steps on and eight
    steps on. *)
Theorem getSanfangSizheng_ring (b : string) :
  (b ∉ EARTHLY_BRANCHES → getSanfangSizheng b = [])
  ∧ (b ∈ EARTHLY_BRANCHES →
     ∃ i : nat, EARTHLY_BRANCHES !! i = Some b
       ∧ getSanfangSizheng b
         = (λ k, nth ((i + k) `mod` 12) EARTHLY_BRANCHES EmptyString) <$> [0; 6; 4; 8]%nat
       ∧ NoDup (getSanfangSizheng b)
       ∧ getSanfangSizheng b ⊆ EARTHLY_BRANCHES).
Proof.
  split; [ apply getSanfangSizheng_outside | ].
  - intros Hin. apply list_elem_of_lookup in Hin as Hi. destruct Hi as [i Hi].
    exists i. split; [ done | ].
    entries Hin; subst b; vm_compute in Hi;
      repeat (destruct i as [ | i]; try discriminate Hi);
      (split; [ reflexivity | split; by_evaluation ]).
Qed.

(** Being related is symmetric: one branch is among the four of another
    exactly when the other is among its four. *)
Theorem getSanfangSizheng_symmetric (b c : string) :
  c ∈ getSanfangSizheng b ↔ b ∈ getSanfangSizheng c.
Proof.
  assert (∀ x y, y ∈ getSanfangSizheng x → x ∈ getSanfangSizheng y) as Hhalf.
  { intros x y Hy. destruct (decide (x ∈ EARTHLY_BRANCHES)) as [Hx | Hx].
    - entries Hx; subst x; vm_compute in Hy; entries Hy; subst y; by_evaluation.
    - apply getSanfangSizheng_outside in Hx. rewrite Hx in Hy. by apply elem_of_nil in Hy. }
  split; apply Hhalf.
Qed.

Lemma length_filter_fmap {A B : Type} (f : A → B) (P : B → Prop)
    `{!∀ x, Decision (P x)} (l : list A) :
  length (filter (λ x, P (f x)) l) = length (filter P (f <$> l)).
Proof.
  induction l as [ | x l IH]; [ done | ].
  rewrite fmap_cons, !filter_cons. case_decide; simpl; by rewrite IH.
Qed.

(** A cell is highlighted exactly when its branch is among the four related
    to the soul palace's branch; it is the [self] cell exactly when it is on
    that branch; and without a soul palace on a ring branch no cell is
    highlighted. *)
Theorem highlight_of_cell (chart : list PalaceData) (cell : PalaceData) :
  let sanfang := sanfangBranches chart in
  (isHighlighted sanfang cell = true ↔ earthlyBranch cell ∈ sanfang)
  ∧ (highlightType sanfang cell = None ↔ isHighlighted sanfang cell = false)
  ∧ (highlightType sanfang cell = Some HighlightSelf
     ↔ earthlyBranch cell = soulBranch chart ∧ soulBranch chart ∈ EARTHLY_BRANCHES)
  ∧ (soulBranch chart ∉ EARTHLY_BRANCHES → isHighlighted sanfang cell = false).
Proof.
  intros sanfang. unfold isHighlighted, highlightType.
  pose proof (indexOf_bounds (earthlyBranch cell) sanfang) as Hb.
  pose proof (indexOf_absent (earthlyBranch cell) sanfang) as Habs.
  pose proof (indexOf_lookup (earthlyBranch cell) sanfang 0) as H0.
  split; [ | split; [ | split ] ].
  - rewrite bool_decide_eq_true. split.
    + intros Hn. destruct (decide (earthlyBranch cell ∈ sanfang)); [ done | ]. tauto.
    + intros Hin Hn. by apply Habs in Hn.
  - rewrite bool_decide_eq_false. repeat case_decide; split; intros; try done; lia.
  - assert ((if decide (JS.indexOf (earthlyBranch cell) sanfang = 0)
             then Some HighlightSelf
             else if decide (JS.indexOf (earthlyBranch cell) sanfang = 1)
                  then Some HighlightOpposite
                  else if decide (JS.indexOf (earthlyBranch cell) sanfang >= 2)
                       then Some HighlightTrine else None) = Some HighlightSelf
            ↔ JS.indexOf (earthlyBranch cell) sanfang = 0) as Hself.
    { repeat case_decide; split; intros; congruence. }
    etrans; [ exact Hself | ]. etrans; [ exact H0 | ]. clear Hself H0 Hb Habs. simpl take.
    subst sanfang. unfold sanfangBranches.
    pose proof (getSanfangSizheng_outside (soulBranch chart)) as Hout.
    destruct (decide (soulBranch chart ∈ EARTHLY_BRANCHES)) as [Hs | Hs].
    + assert (getSanfangSizheng (soulBranch chart) !! 0%nat = Some (soulBranch chart)) as ->.
      { unfold getSanfangSizheng. case_decide as Hidx; [ | done ].
        apply indexOf_absent in Hidx. done. }
      split; [ intros [[= Heq] _]; split; [ by symmetry | done ] | ].
      intros [-> _]. split; [ done | apply not_elem_of_nil ].
    + rewrite (Hout Hs). split; [ intros [[=] _] | tauto ].
  - intros Hs. subst sanfang. unfold sanfangBranches.
    pose proof (getSanfangSizheng_outside (soulBranch chart)) as Hout.
    rewrite (Hout Hs). apply bool_decide_eq_false; intros Hn; by apply Hn.
Qed.

Lemma isHighlighted_cellOn (sanfang : list string) (p : PalaceData) :
  isHighlighted sanfang p = isHighlighted sanfang (cellOn (earthlyBranch p)).
Proof. reflexivity. Qed.

Lemma highlightType_cellOn (sanfang : list string) (p : PalaceData) :
  highlightType sanfang p = highlightType sanfang (cellOn (earthlyBranch p)).
Proof. reflexivity. Qed.

(** On a chart with a palace on each ring branch, once, and the soul palace
    among them, four cells are highlighted: the soul palace itself, the one
    opposite and two in trine. *)
Theorem highlighted_cells_count (chart : list PalaceData) :
  soulBranch chart ∈ EARTHLY_BRANCHES →
  earthlyBranch <$> chart ≡ₚ EARTHLY_BRANCHES →
  let sanfang := sanfangBranches chart in
  length (filter (λ p, isHighlighted sanfang p = true) chart) = 4%nat
  ∧ length (filter (λ p, highlightType sanfang p = Some HighlightSelf) chart) = 1%nat
  ∧ length (filter (λ p, highlightType sanfang p = Some HighlightOpposite) chart) = 1%nat
  ∧ length (filter (λ p, highlightType sanfang p = Some HighlightTrine) chart) = 2%nat.
Proof.
  intros Hsoul Hperm sanfang. subst sanfang. unfold sanfangBranches.
  generalize dependent (soulBranch chart). intros sb Hsoul.
  assert (∀ (Q : PalaceData → Prop) `{!∀ p, Decision (Q p)},
            (∀ p, Q p ↔ Q (cellOn (earthlyBranch p))) →
            length (filter Q chart)
            = length (filter (λ b, Q (cellOn b)) EARTHLY_BRANCHES)) as Hcount.
  { intros Q HQ Hcell.
    rewrite <- Hperm, <- (length_filter_fmap earthlyBranch (λ b, Q (cellOn b))).
    f_equal. apply list_filter_iff. intros p. apply Hcell. }
  rewrite (Hcount (λ p, isHighlighted (getSanfangSizheng sb) p = true))
    by (intros p; by rewrite isHighlighted_cellOn).
  rewrite (Hcount (λ p, highlightType (getSanfangSizheng sb) p = Some HighlightSelf))
    by (intros p; by rewrite highlightType_cellOn).
  rewrite (Hcount (λ p, highlightType (getSanfangSizheng sb) p = Some HighlightOpposite))
    by (intros p; by rewrite highlightType_cellOn).
  rewrite (Hcount (λ p, highlightType (getSanfangSizheng sb) p = Some HighlightTrine))
    by (intros p; by rewrite highlightType_cellOn).
  clear Hcount Hperm chart.
  entries Hsoul; subst sb; vm_compute; done.
Qed.

(** ** Sorting by key *)

Section SortByKey.
Context {A : Type} (key : A → Z).

Lemma insertByKey_Permutation (x : A) (l : list A) : insertByKey key x l ≡ₚ x :: l.
Proof.
  induction l as [ | y l IH]; simpl; [ done | ].
  case_decide; [ done | ]. rewrite IH. apply Permutation_swap.
Qed.

Lemma sortByKey_Permutation (l : list A) : sortByKey key l ≡ₚ l.
Proof.
  induction l as [ | x l IH]; simpl; [ done | ].
  by rewrite insertByKey_Permutation, IH.
Qed.

Lemma insertByKey_sorted (x : A) (l : list A) :
  StronglySorted (λ a b, key a ≤ key b) l →
  StronglySorted (λ a b, key a ≤ key b) (insertByKey key x l).
Proof.
  induction 1 as [ | y l Hl IH Hy]; simpl; [ by repeat constructor | ].
  case_decide as Hxy.
  - constructor; [ by constructor | ].
    constructor; [ done | ]. eapply Forall_impl; [ exact Hy | ]. simpl. lia.
  - constructor; [ done | ].
    rewrite insertByKey_Permutation. constructor; [ lia | done ].
Qed.

Lemma sortByKey_sorted (l : list A) :
  StronglySorted (λ a b, key a ≤ key b) (sortByKey key l).
Proof.
  induction l as [ | x l IH]; simpl; [ constructor | by apply insertByKey_sorted ].
Qed.

Lemma insertByKey_filter (k : Z) (x : A) (l : list A) :
  filter (λ a, key a = k) (insertByKey key x l) = filter (λ a, key a = k) (x :: l).
Proof.
  induction l as [ | y l IH]; simpl; [ done | ].
  case_decide as Hxy; [ done | ].
  rewrite (filter_cons _ y), IH, !filter_cons.
  repeat case_decide; try done; lia.
Qed.

(** The sort is stable: elements of one key stay in their order. *)
Lemma sortByKey_stable (k : Z) (l : list A) :
  filter (λ a, key a = k) (sortByKey key l) = filter (λ a, key a = k) l.
Proof.
  induction l as [ | x l IH]; simpl; [ done | ].
  rewrite insertByKey_filter, !filter_cons, IH. done.
Qed.

End SortByKey.

(** ** The four transformations *)

Lemma sihuaOfStar_elem (palaceName : string) (star : StarData) (x : Sihua) :
  x ∈ sihuaOfStar palaceName star
  ↔ mutagen star = Some (sh_type x) ∧ sh_type x ∈ sihuaOrder
    ∧ sh_star x = star_name star ∧ sh_palace x = palaceName.
Proof.
  unfold sihuaOfStar. destruct (mutagen star) as [m | ].
  - case_decide as Hm.
    + rewrite list_elem_of_singleton. split.
      * intros ->. simpl. tauto.
      * destruct x as [t s p]; simpl. intros ([= Ht] & _ & Hs & Hp). congruence.
    + split; [ intros []%elem_of_nil | ].
      intros ([= Ht] & Hin & _). exfalso. apply Hm. rewrite Ht. split; [ | done ].
      intros He. rewrite He in Hin. revert Hin. by_evaluation.
  - split; [ intros []%elem_of_nil | intros ([=] & _) ].
Qed.

(** The list shown in the chart's centre holds the collected entries, each
    as often as collected, ordered 祿, 權, 科, 忌, entries of one kind in
    chart order; every entry is of one of the four kinds. *)
Theorem extractSihuaFromData_sorted (chart : list PalaceData) :
  let l := extractSihuaFromData chart in
  l ≡ₚ collectSihua chart
  ∧ StronglySorted (λ a b, sihuaKey a ≤ sihuaKey b) l
  ∧ (∀ k, filter (λ a, sihuaKey a = k) l = filter (λ a, sihuaKey a = k) (collectSihua chart))
  ∧ Forall (λ a, sh_type a ∈ sihuaOrder) l.
Proof.
  intros l. subst l. unfold extractSihuaFromData.
  split; [ apply sortByKey_Permutation | ].
  split; [ apply sortByKey_sorted | ].
  split; [ intros k; apply sortByKey_stable | ].
  rewrite sortByKey_Permutation. apply Forall_forall. intros x Hx.
  unfold collectSihua in Hx.
  apply list_elem_of_bind in Hx as (p & Hx & _).
  apply list_elem_of_bind in Hx as (s & Hx & _).
  by apply sihuaOfStar_elem in Hx as (_ & ? & _).
Qed.

(** From the engine to the list: an entry is shown exactly when some major
    or minor star of an engine palace carries one of the four marks; the
    overlay changes none of them and adjective stars contribute none. *)
Theorem extractSihuaFromData_of_engine
    (astrolabe : EngineAstrolabe) (data : BirthData) (today : Date) (x : Sihua) :
  x ∈ extractSihuaFromData (palaces (calculateAstrolabe astrolabe data today))
  ↔ ∃ e s, e ∈ ea_palaces astrolabe
           ∧ s ∈ (ep_majorStars e ++ ep_minorStars e)%list
           ∧ mutagen s = Some (sh_type x) ∧ sh_type x ∈ sihuaOrder
           ∧ sh_star x = star_name s ∧ sh_palace x = ep_name e.
Proof.
  unfold extractSihuaFromData. rewrite sortByKey_Permutation.
  unfold collectSihua, calculateAstrolabe; cbn [palaces].
  rewrite list_elem_of_bind. split.
  - intros (p & Hx & Hp). apply list_elem_of_fmap in Hp as (e & -> & He).
    apply list_elem_of_bind in Hx as (s & Hx & Hs). simpl in Hs.
    rewrite <- fmap_app in Hs. apply list_elem_of_fmap in Hs as (s0 & -> & Hs0).
    apply sihuaOfStar_elem in Hx. simpl in Hx. exists e, s0. tauto.
  - intros (e & s & He & Hs & Hx).
    exists (mapPalace (ea_earthlyBranchOfBodyPalace astrolabe) e).
    split; [ | apply list_elem_of_fmap; eauto ].
    apply list_elem_of_bind. exists (overlayStar (ep_earthlyBranch e) s). split.
    + apply sihuaOfStar_elem. simpl. tauto.
    + simpl. rewrite <- fmap_app. apply list_elem_of_fmap. eauto.
Qed.

(** ** The grid *)

Lemma placePalace_blank (m : gmap string PalaceData) (grid : list (list Cell))
    (b : string) (row col : nat) (rest : list (string * (nat * nat))) :
  grid !! row ≫= (.!! col) = Some CellNull →
  foldl (placePalace m) grid ((b, (row, col)) :: rest)
  = foldl (placePalace m)
      (setCell grid row col (match m !! b with Some p => CellPalace p | None => CellNull end))
      rest.
Proof.
  intros Hblank. simpl. f_equal. unfold placePalace; simpl.
  destruct (m !! b) as [p | ]; [ done | ].
  unfold setCell. destruct (grid !! row) as [cells | ] eqn:Hrow; [ | done ].
  simpl in Hblank. by rewrite (list_insert_id cells), list_insert_id.
Qed.

(** The grid is laid out clockwise from 巳 in the top left corner: each
    border cell shows the last palace on its branch, or stays empty when
    there is none; the four centre cells are never written; palaces on a
    branch outside the ring are not shown. *)
Theorem buildGrid_layout (chart : list PalaceData) :
  let c := cellOfBranch chart in
  buildGrid chart
  = [[c "巳"; c "午"; c "未"; c "申"];
     [c "辰"; CellCenter; CellCenter; c "酉"];
     [c "卯"; CellCenter; CellCenter; c "戌"];
     [c "寅"; c "丑"; c "子"; c "亥"]].
Proof.
  intros c. subst c. unfold cellOfBranch, buildGrid, PALACE_POSITIONS.
  assert (∀ b, last (filter (λ p, earthlyBranch p = b) chart) = palaceMap chart !! b) as Hm.
  { intros b. unfold palaceMap. rewrite insertAll_lookup. by destruct (last _). }
  rewrite !Hm. generalize (palaceMap chart). intros m.
  do 12 (rewrite placePalace_blank by reflexivity).
  reflexivity.
Qed.

(** ** The palace list of the analysis panel *)

Lemma indexOf_inj (a b : string) (l : list string) :
  b ∈ l → JS.indexOf a l = JS.indexOf b l → a = b.
Proof.
  intros Hb Heq. pose proof (indexOf_bounds b l) as Hbound.
  assert (JS.indexOf b l ≠ -1) as Hne by (by intros ?%indexOf_absent).
  assert (JS.indexOf b l = Z.of_nat (Z.to_nat (JS.indexOf b l))) as Hi by lia.
  rewrite Hi in Heq. apply indexOf_lookup in Hi as [Hlb _], Heq as [Hla _]. congruence.
Qed.

(** Sorting by position in a list of names puts a permutation of the list
    into the order of the list. *)
Lemma sortByKey_names (order : list string) (chart : list PalaceData) :
  StronglySorted (λ a b, JS.indexOf a order ≤ JS.indexOf b order) order →
  name <$> chart ≡ₚ order →
  name <$> sortByKey (λ p, JS.indexOf (name p) order) chart = order.
Proof.
  intros Hsorted Hperm.
  apply (StronglySorted_unique_strong (λ a b, JS.indexOf a order ≤ JS.indexOf b order)).
  - intros x1 x2 _ Hx2 H12 H21.
    apply (indexOf_inj x1 x2 order); [ exact Hx2 | ].
    exact (Z.le_antisymm _ _ H12 H21).
  - apply (StronglySorted_fmap name
             (λ p q, JS.indexOf (name p) order ≤ JS.indexOf (name q) order)).
    + intros p q Hpq. exact Hpq.
    + exact (sortByKey_sorted (λ p, JS.indexOf (name p) order) chart).
  - exact Hsorted.
  - by rewrite sortByKey_Permutation.
Qed.

Lemma analysisPalaceOrder_sorted :
  StronglySorted
    (λ a b, JS.indexOf a analysisPalaceOrder ≤ JS.indexOf b analysisPalaceOrder)
    analysisPalaceOrder.
Proof. by_evaluation. Qed.

(** The analysis panel lists the palaces of the chart, each once, by rising
    position of their name in its own order, unknown names first; a chart
    that has each of the twelve names once is listed in exactly that order,
    however the engine ordered it. *)
Theorem sortedPalaces_order (chart : list PalaceData) :
  sortedPalaces chart ≡ₚ chart
  ∧ StronglySorted (λ p q, analysisPalaceKey p ≤ analysisPalaceKey q) (sortedPalaces chart)
  ∧ (name <$> chart ≡ₚ analysisPalaceOrder →
     name <$> sortedPalaces chart = analysisPalaceOrder).
Proof.
  split; [ apply sortByKey_Permutation | ].
  split; [ apply sortByKey_sorted | ].
  intros Hperm.
  exact (sortByKey_names analysisPalaceOrder chart analysisPalaceOrder_sorted Hperm).
Qed.

(** ** Recent searches *)

(** The record [saveSearchRecord] creates. *)
Lemma saveSearchRecord_eq
    (recentSearches : list SearchRecord) (record : SearchRecord) (id : string) (ts : Z) :
  ∃ newRecord,
    sr_id newRecord = id ∧ sr_timestamp newRecord = ts ∧ sameBirth record newRecord
    ∧ saveSearchRecord recentSearches record id ts
      = take MAX_RECORDS (newRecord :: filter (λ r, ¬ sameBirth record r) recentSearches).
Proof.
  unfold saveSearchRecord.
  set (newRecord := mkSearchRecord id ts _ _ _ _ _ _ _).
  exists newRecord. split; [ done | ]. split; [ done | ]. split; [ by repeat split | ].
  f_equal. case_bool_decide as Hdup; [ done | ]. f_equal.
  rewrite <- Forall_Exists_neg in Hdup.
  clear -Hdup. induction Hdup as [ | r l Hr Hl IH]; [ done | ].
  rewrite filter_cons_True by done. by f_equal.
Qed.

Lemma distinct_sublist (l l' : list SearchRecord) :
  l' `sublist_of` l →
  (∀ i j r1 r2, l !! i = Some r1 → l !! j = Some r2 → sameBirth r1 r2 → i = j) →
  ∀ i j r1 r2, l' !! i = Some r1 → l' !! j = Some r2 → sameBirth r1 r2 → i = j.
Proof.
  intros Hl. induction Hl as [ | x l1 l2 Hl IH | x l1 l2 Hl IH]; intros Hd.
  - done.
  - intros [ | i] [ | j] r1 r2 H1 H2 Hsame; simpl in *.
    + done.
    + injection H1 as ->. apply list_elem_of_lookup_2 in H2.
      apply (λ H, elem_of_sublist _ _ _ H Hl), list_elem_of_lookup in H2 as [j' H2].
      by specialize (Hd 0%nat (S j') r1 r2 eq_refl H2 Hsame).
    + injection H2 as ->. apply list_elem_of_lookup_2 in H1.
      apply (λ H, elem_of_sublist _ _ _ H Hl), list_elem_of_lookup in H1 as [i' H1].
      by specialize (Hd (S i') 0%nat r1 r2 H1 eq_refl Hsame).
    + f_equal. apply (IH (λ i j r1 r2 H1 H2 Hs, eq_add_S _ _ (Hd (S i) (S j) r1 r2 H1 H2 Hs))
                       i j r1 r2); done.
  - apply IH. intros i j r1 r2 H1 H2 Hs. apply eq_add_S. by apply (Hd (S i) (S j) r1 r2).
Qed.

(** Saving a search puts it first, keeps at most ten, and leaves no older
    record of the same birth data: whether or not such a record existed,
    the stored list is the new record followed by the older records of
    other birth data, in their order, cut to ten. *)
Theorem saveSearchRecord_result
    (recentSearches : list SearchRecord) (record : SearchRecord) (id : string) (ts : Z) :
  let saved := saveSearchRecord recentSearches record id ts in
  (∃ newRecord older,
     saved = newRecord :: older
     ∧ sr_id newRecord = id ∧ sr_timestamp newRecord = ts ∧ sameBirth record newRecord
     ∧ older = take 9 (filter (λ r, ¬ sameBirth record r) recentSearches)
     ∧ Forall (λ r, ¬ sameBirth record r) older
     ∧ older `sublist_of` recentSearches)
  ∧ (length saved ≤ MAX_RECORDS)%nat.
Proof.
  intros saved. subst saved.
  destruct (saveSearchRecord_eq recentSearches record id ts)
    as (newRecord & Hid & Hts & Hsame & ->).
  split; [ | rewrite length_take; unfold MAX_RECORDS; lia ].
  exists newRecord, (take 9 (filter (λ r, ¬ sameBirth record r) recentSearches)).
  do 5 (split; [ done | ]). split.
  - apply Forall_take. apply Forall_forall. intros r Hr.
    by apply list_elem_of_filter in Hr as [? _].
  - etrans; [ apply sublist_take | apply sublist_filter ].
Qed.

(** Saving and deleting keep the stored list within ten records of pairwise
    different birth data, and a deleted id is gone. *)
Theorem recent_searches_invariant
    (recentSearches : list SearchRecord) (record : SearchRecord) (id : string) (ts : Z) :
  let distinctBirths := λ l : list SearchRecord,
    ∀ i j r1 r2, l !! i = Some r1 → l !! j = Some r2 → sameBirth r1 r2 → i = j in
  (length recentSearches ≤ MAX_RECORDS)%nat → distinctBirths recentSearches →
  (distinctBirths (saveSearchRecord recentSearches record id ts)
   ∧ (length (saveSearchRecord recentSearches record id ts) ≤ MAX_RECORDS)%nat)
  ∧ (distinctBirths (deleteRecord recentSearches id)
     ∧ (length (deleteRecord recentSearches id) ≤ MAX_RECORDS)%nat
     ∧ Forall (λ r, sr_id r ≠ id) (deleteRecord recentSearches id)).
Proof.
  intros distinctBirths Hlen Hdistinct.
  destruct (saveSearchRecord_eq recentSearches record id ts)
    as (newRecord & _ & _ & Hnew & ->).
  split; [ split; [ | rewrite length_take; unfold MAX_RECORDS; lia ] | ].
  - set (others := filter (λ r, ¬ sameBirth record r) recentSearches).
    assert (Forall (λ r, ¬ sameBirth record r) others) as Hother.
    { apply Forall_forall. intros r Hr. by apply list_elem_of_filter in Hr as [? _]. }
    unfold distinctBirths.
    apply (distinct_sublist (newRecord :: others)); [ apply sublist_take | ].
    intros [ | i] [ | j] r1 r2 H1 H2 Hsame; simpl in *.
    + done.
    + injection H1 as ->. exfalso.
      apply list_elem_of_lookup_2 in H2. rewrite Forall_forall in Hother.
      apply (Hother r2 H2). unfold sameBirth in *. destruct_and?. repeat split; congruence.
    + injection H2 as ->. exfalso.
      apply list_elem_of_lookup_2 in H1. rewrite Forall_forall in Hother.
      apply (Hother r1 H1). unfold sameBirth in *. destruct_and?. repeat split; congruence.
    + f_equal. apply (distinct_sublist recentSearches others (sublist_filter _ _) Hdistinct
                        i j r1 r2); done.
  - unfold deleteRecord. split; [ | split ].
    + unfold distinctBirths.
      apply (distinct_sublist recentSearches); [ apply sublist_filter | done ].
    + etrans; [ apply length_filter | done ].
    + apply Forall_forall. intros r Hr. by apply list_elem_of_filter in Hr as [? _].
Qed.

(** ** The form's validation *)

(** The form submits only birth data with the year in 1900 to 2100, the
    month in 1 to 12 and the day in 1 to 31, and submits all of those; so
    the ages computed for a submission lie between 0 and the years since
    1900, and between 1 and one more. *)
Theorem handleSubmit_form_range
    (y m d : option Z) (h : Z) (g : Gender) (lunar : bool) (data : BirthData) :
  (handleSubmit_form y m d h g lunar = Submit data
   ↔ y = Some (year data) ∧ m = Some (month data) ∧ d = Some (day data)
     ∧ 1900 ≤ year data ≤ 2100 ∧ 1 ≤ month data ≤ 12 ∧ 1 ≤ day data ≤ 31
     ∧ hour data = h ∧ gender data = g ∧ isLunar data = lunar)
  ∧ (handleSubmit_form y m d h g lunar = Submit data →
     ∀ today,
       0 ≤ ages_realAge (calculateAge (year data) (month data) (day data) today)
         ≤ Z.max 0 (getFullYear today - 1900)
       ∧ 1 ≤ ages_age (calculateAge (year data) (month data) (day data) today)
           ≤ Z.max 1 (getFullYear today - 1899)).
Proof.
  assert (handleSubmit_form y m d h g lunar = Submit data
          ↔ y = Some (year data) ∧ m = Some (month data) ∧ d = Some (day data)
            ∧ 1900 ≤ year data ≤ 2100 ∧ 1 ≤ month data ≤ 12 ∧ 1 ≤ day data ≤ 31
            ∧ hour data = h ∧ gender data = g ∧ isLunar data = lunar) as Hiff.
  { unfold handleSubmit_form, checkField.
    destruct y as [yv | ], m as [mv | ], d as [dv | ]; repeat case_decide;
      (split; [ try discriminate; intros [= <-]; simpl; repeat split; lia
              | intros ([= ?] & [= ?] & [= ?] & ? & ? & ? & ? & ? & ?);
                try lia; destruct data; simpl in *; by subst ]). }
  split; [ exact Hiff | ].
  intros (_ & _ & _ & Hy & _ & _)%Hiff today.
  unfold calculateAge; simpl. case_decide; lia.
Qed.

(** ** The further properties at the samples *)

Lemma rotation_Permutation {A : Type} (n : nat) (l : list A) :
  drop n l ++ take n l ≡ₚ l.
Proof. rewrite Permutation_app_comm. by rewrite take_drop. Qed.

Lemma sample_names : name <$> palaces sampleResult ≡ₚ palaceOrder.
Proof. exact (rotation_Permutation 5 palaceOrder). Qed.

Lemma sample_branches : earthlyBranch <$> palaces sampleResult ≡ₚ earthlyBranches.
Proof. exact (rotation_Permutation 2 earthlyBranches). Qed.

Lemma getStarBrightness_overridden_star_witness :
  ("太陰" ∈ overriddenStars ∧ "午" ∈ earthlyBranches)
  ∧ getStarBrightness "太陰" "午" (Some "廟") ≠ Some "陷".
Proof.
  split; [ split; by_evaluation | ].
  apply (getStarBrightness_overridden_star "太陰" "午" (Some "廟")); by_evaluation.
Defined.

Lemma getStarBrightness_untouched_witness :
  (("紫微" ∉ overriddenStars) ∧ "酉" ∈ earthlyBranches)
  ∧ getStarBrightness "紫微" "酉" (Some "旺") = Some "旺".
Proof.
  split; [ split; by_evaluation | ].
  apply (getStarBrightness_untouched "紫微" "酉" (Some "旺")); by_evaluation.
Defined.

Lemma calculateAge_monotone_witness :
  dateLe {| getFullYear := 2026; getMonth := 5; getDate := 14 |} sampleToday
  ∧ ages_age (calculateAge 1984 6 15 {| getFullYear := 2026; getMonth := 5; getDate := 14 |})
    ≤ ages_age (calculateAge 1984 6 15 sampleToday).
Proof.
  assert (dateLe {| getFullYear := 2026; getMonth := 5; getDate := 14 |} sampleToday) as Hle
    by (right; split; [ reflexivity | left; simpl; lia ]).
  split; [ exact Hle | ].
  apply (calculateAge_monotone 1984 6 15 _ _ Hle).
Defined.

Lemma calculateAge_not_yet_born_witness :
  notYetBorn 2040 6 15 sampleToday
  ∧ calculateAge 2040 6 15 sampleToday = {| ages_realAge := 0; ages_age := 1 |}.
Proof.
  assert (notYetBorn 2040 6 15 sampleToday) as Hborn by (left; simpl; lia).
  split; [ exact Hborn | ]. apply (calculateAge_not_yet_born _ _ _ _ Hborn).
Defined.

Lemma decadal_period_palace_witness :
  decadalAt 3 palaceOrder (palaces sampleResult) 1 ∈ decadalFortunes sampleResult
  ∧ NoDup (name <$> palaces sampleResult)
  ∧ d_earthlyBranch (decadalAt 3 palaceOrder (palaces sampleResult) 1) = "戌".
Proof.
  assert (decadalAt 3 palaceOrder (palaces sampleResult) 1 ∈ decadalFortunes sampleResult)
    as Hd by (apply list_elem_of_lookup; exists 1%nat; reflexivity).
  assert (NoDup (name <$> palaces sampleResult)) as Hnd by by_evaluation.
  split; [ exact Hd | split; [ exact Hnd | ] ].
  destruct (decadal_period_palace woodYangChart sampleData sampleToday _ Hd) as [Hfound _].
  apply (Hfound Hnd (mapPalace "亥" (samplePalace "父母宮" "甲" "戌"))).
  - apply list_elem_of_lookup. exists 8%nat. reflexivity.
  - reflexivity.
Defined.

Lemma decadal_periods_visit_every_palace_witness :
  name <$> palaces sampleResult ≡ₚ palaceOrder
  ∧ d_earthlyBranch <$> decadalFortunes sampleResult ≡ₚ earthlyBranch <$> palaces sampleResult.
Proof.
  split; [ exact sample_names | ].
  apply (decadal_periods_visit_every_palace woodYangChart sampleData sampleToday sample_names).
Defined.

Lemma currentDecadal_index_witness :
  (∃ d, currentDecadal sampleResult = Some d ∧ d_index d = 5)
  ∧ age (calculateAstrolabe woodYangChart (sampleBirth 2040 Male) sampleToday) = 1
  ∧ currentDecadal (calculateAstrolabe woodYangChart (sampleBirth 2040 Male) sampleToday) = None.
Proof.
  destruct (currentDecadal_index woodYangChart sampleData sampleToday) as [Hidx _].
  destruct (currentDecadal_index woodYangChart (sampleBirth 2040 Male) sampleToday) as [_ Hone].
  split; [ | split; [ reflexivity | apply Hone; reflexivity ] ].
  eexists. split; [ reflexivity | ].
  destruct (Hidx _ eq_refl) as (-> & _ & _). reflexivity.
Defined.

Lemma yearly_branch_cycle_witness :
  (birthYearBranch woodYangChart ∈ earthlyBranches ∧ 1984 ≤ 2026)
  ∧ currentYearBranch woodYangChart 1984 (2026 + 12) = currentYearBranch woodYangChart 1984 2026.
Proof.
  assert (birthYearBranch woodYangChart ∈ earthlyBranches) as Hring by by_evaluation.
  split; [ split; [ exact Hring | lia ] | ].
  apply (yearly_branch_cycle woodYangChart 1984 2026 Hring). lia.
Defined.

Lemma currentYearly_palace_witness :
  NoDup (earthlyBranch <$> palaces sampleResult)
  ∧ y_earthlyBranch (currentYearly sampleResult) = Some "午"
  ∧ y_palaceName (currentYearly sampleResult) = "子女宮".
Proof.
  assert (NoDup (earthlyBranch <$> palaces sampleResult)) as Hnd by by_evaluation.
  split; [ exact Hnd | split; [ reflexivity | ] ].
  destruct (currentYearly_palace woodYangChart sampleData sampleToday)
    as (_ & _ & Hfound & _).
  apply (Hfound Hnd (mapPalace "亥" (samplePalace "子女宮" "庚" "午"))).
  - apply list_elem_of_lookup. exists 4%nat. reflexivity.
  - reflexivity.
Defined.

Lemma origin_branch_range_witness :
  ("甲" ∈ heavenlyStems ∧ "乙" ∈ heavenlyStems)
  ∧ branch (calculateOriginPalace "乙" []) ≠ branch (calculateOriginPalace "甲" []).
Proof.
  assert ("甲" ∈ heavenlyStems) as Ha by by_evaluation.
  assert ("乙" ∈ heavenlyStems) as Hb by by_evaluation.
  split; [ by split | ].
  destruct (origin_branch_range "甲" []) as (_ & _ & _ & Hinj).
  intros Heq. specialize (Hinj "乙" [] Ha Hb Heq). discriminate Hinj.
Defined.

Lemma origin_palace_on_complete_chart_witness :
  earthlyBranch <$> palaces sampleResult ≡ₚ earthlyBranches
  ∧ ∃ p, p ∈ palaces sampleResult
         ∧ name p = palace (calculateOriginPalace "甲" (palaces sampleResult)).
Proof.
  split; [ exact sample_branches | ].
  destruct (origin_palace_on_complete_chart "甲" (palaces sampleResult) sample_branches)
    as (p & Hp & _ & Hname).
  exists p. by split.
Defined.

Lemma handleSubmit_origin_without_stem_witness :
  yearStem undatedChart = EmptyString
  ∧ gender sampleData = Male
  ∧ branch (handleSubmit_origin undatedChart sampleData sampleToday) = "戌"
  ∧ periodNames (calculateAstrolabe undatedChart sampleData sampleToday) = palaceOrderReverse.
Proof.
  destruct (handleSubmit_origin_without_stem undatedChart sampleData sampleToday eq_refl)
    as (Hbranch & Hmale & _).
  split; [ reflexivity | split; [ reflexivity | split; [ exact Hbranch | ] ] ].
  apply Hmale. reflexivity.
Defined.

Lemma palacesDict_distinct_names_witness :
  NoDup (name <$> palaces sampleResult)
  ∧ size (handleAIReading_palacesDict (palaces sampleResult)) = 12%nat.
Proof.
  assert (NoDup (name <$> palaces sampleResult)) as Hnd by by_evaluation.
  split; [ exact Hnd | ].
  assert (mapPalace "亥" (samplePalace "命宮" "癸" "酉") ∈ palaces sampleResult) as Hin
    by (apply list_elem_of_lookup; exists 7%nat; reflexivity).
  destruct (palacesDict_distinct_names _ _ Hnd Hin) as [_ Hsize].
  rewrite Hsize. reflexivity.
Defined.

Lemma handleSubmit_palacesDict_overlaid_witness :
  NoDup (ep_name <$> ea_palaces woodYangChart)
  ∧ de_stars <$> (handleSubmit_palacesDict woodYangChart sampleData sampleToday !! "田宅宮")
    = Some [ {| ds_name := "太陰"; ds_brightness := Some "廟"; ds_mutagen := Some "祿" |} ].
Proof.
  assert (NoDup (ep_name <$> ea_palaces woodYangChart)) as Hnd by by_evaluation.
  split; [ exact Hnd | ].
  assert (samplePalace "田宅宮" "丙" "子" ∈ ea_palaces woodYangChart) as Hin
    by (apply list_elem_of_lookup; exists 10%nat; reflexivity).
  destruct (handleSubmit_palacesDict_overlaid woodYangChart sampleData sampleToday _ Hnd Hin)
    as [Hentry _].
  change (ep_name (samplePalace "田宅宮" "丙" "子")) with "田宅宮" in Hentry.
  rewrite Hentry. reflexivity.
Defined.

Lemma handleAIReading_age_witness :
  rq_age (handleAIReading_request sampleResult None) = 43.
Proof.
  destruct (handleAIReading_age woodYangChart sampleData sampleToday None) as (Hage & _).
  unfold sampleResult. rewrite Hage. reflexivity.
Defined.

Lemma getSanfangSizheng_ring_witness :
  "酉" ∈ EARTHLY_BRANCHES ∧ NoDup (getSanfangSizheng "酉").
Proof.
  assert ("酉" ∈ EARTHLY_BRANCHES) as Hin by by_evaluation.
  split; [ exact Hin | ].
  destruct (getSanfangSizheng_ring "酉") as [_ Hring].
  destruct (Hring Hin) as (i & _ & _ & Hnd & _). exact Hnd.
Defined.

Lemma highlight_of_cell_witness :
  earthlyBranch (cellOn "酉") = soulBranch (palaces sampleResult)
  ∧ soulBranch (palaces sampleResult) ∈ EARTHLY_BRANCHES
  ∧ highlightType (sanfangBranches (palaces sampleResult)) (cellOn "酉") = Some HighlightSelf.
Proof.
  assert (soulBranch (palaces sampleResult) ∈ EARTHLY_BRANCHES) as Hin by by_evaluation.
  split; [ reflexivity | split; [ exact Hin | ] ].
  destruct (highlight_of_cell (palaces sampleResult) (cellOn "酉")) as (_ & _ & Hself & _).
  apply Hself. split; [ reflexivity | exact Hin ].
Defined.

Lemma highlighted_cells_count_witness :
  (soulBranch (palaces sampleResult) ∈ EARTHLY_BRANCHES
   ∧ earthlyBranch <$> palaces sampleResult ≡ₚ EARTHLY_BRANCHES)
  ∧ length (filter (λ p, isHighlighted (sanfangBranches (palaces sampleResult)) p = true)
              (palaces sampleResult)) = 4%nat.
Proof.
  assert (soulBranch (palaces sampleResult) ∈ EARTHLY_BRANCHES) as Hin by by_evaluation.
  split; [ split; [ exact Hin | exact sample_branches ] | ].
  apply (highlighted_cells_count (palaces sampleResult) Hin sample_branches).
Defined.

Lemma sortedPalaces_order_witness :
  name <$> palaces sampleResult ≡ₚ analysisPalaceOrder
  ∧ name <$> sortedPalaces (palaces sampleResult) = analysisPalaceOrder.
Proof.
  assert (name <$> palaces sampleResult ≡ₚ analysisPalaceOrder) as Hperm.
  { rewrite sample_names. symmetry. apply (orderToUse_Permutation "乙" Male). }
  split; [ exact Hperm | ].
  destruct (sortedPalaces_order (palaces sampleResult)) as (_ & _ & Horder).
  apply Horder, Hperm.
Defined.

Lemma recent_searches_invariant_witness :
  (length sampleSearches ≤ MAX_RECORDS)%nat
  ∧ (length (saveSearchRecord sampleSearches (sampleSearch EmptyString 0 "1984")
               "1700000003000" 1700000003000) ≤ MAX_RECORDS)%nat.
Proof.
  assert (length sampleSearches ≤ MAX_RECORDS)%nat as Hlen by (unfold MAX_RECORDS; simpl; lia).
  split; [ exact Hlen | ].
  apply (recent_searches_invariant sampleSearches (sampleSearch EmptyString 0 "1984")
           "1700000003000" 1700000003000 Hlen).
  intros [ | [ | i]] [ | [ | j]] r1 r2 H1 H2 Hsame; simpl in *; try done;
    injection H1 as <-; injection H2 as <-; destruct Hsame as [Hy _]; discriminate Hy.
Defined.

Lemma handleSubmit_form_range_witness :
  handleSubmit_form (Some 1984) (Some 6) (Some 15) 3 Male false = Submit sampleData
  ∧ 1 ≤ ages_age (calculateAge (year sampleData) (month sampleData) (day sampleData) sampleToday)
      ≤ Z.max 1 (getFullYear sampleToday - 1899).
Proof.
  assert (handleSubmit_form (Some 1984) (Some 6) (Some 15) 3 Male false = Submit sampleData)
    as Hsubmit by reflexivity.
  split; [ exact Hsubmit | ].
  destruct (handleSubmit_form_range (Some 1984) (Some 6) (Some 15) 3 Male false sampleData)
    as [_ Hages].
  apply (Hages Hsubmit sampleToday).
Defined.
